(** * A timestamp web service: the store, the HTTP handlers and the client

    Shallow embedding of [main.go] (package [main]) together with the parts
    of the Go standard library its behaviour depends on ([time], [strconv],
    [fmt], [io], [net/http], [net/http/httptest]).

    Go strings are byte sequences: they are [string] here (a list of
    [ascii] bytes).  [int64] and [uint64] values are [Z] with the
    wrap-around written out.

    The library is the one of Go 1.22 and later (method patterns of
    [http.ServeMux]) on a 64-bit target ([strconv.IntSize] is 64).  A
    response is what [httptest.ResponseRecorder] records of the handler's
    calls, as in the tests of the repository.  The two goroutines of [main]
    are not part of the model: a store is a value that every operation takes
    and gives back. *)

From Stdlib Require Import ZArith String Ascii List Bool Lia.
From stdpp Require Import base gmap strings.

Local Open Scope string_scope.
Local Open Scope Z_scope.

(** ** Machine integers *)

Definition int64 (z : Z) : Prop := - 2 ^ 63 <= z < 2 ^ 63.
Definition uint64 (z : Z) : Prop := 0 <= z < 2 ^ 64.

(** Conversion to [uint64] (and unsigned wrap-around). *)
Definition to_uint64 (z : Z) : Z := z mod 2 ^ 64.

(** Conversion to [int64] (and signed wrap-around). *)
Definition to_int64 (z : Z) : Z := (z + 2 ^ 63) mod 2 ^ 64 - 2 ^ 63.

(** Conversion to [int32]. *)
Definition to_int32 (z : Z) : Z := (z + 2 ^ 31) mod 2 ^ 32 - 2 ^ 31.

(** ** Package [time] *)

Module time.

(** [*Location]: [nil] (UTC) or [Local]. *)
Inductive Location := nilLoc | Local.

(** [type Time struct { wall uint64; ext int64; loc *Location }] *)
Record Time := mkTime { wall : Z; ext : Z; loc : Location }.

Definition secondsPerDay : Z := 86400.

(** [unixToInternal = (1969*365 + 1969/4 - 1969/100 + 1969/400) * secondsPerDay] *)
Definition unixToInternal : Z :=
  (1969 * 365 + 1969 / 4 - 1969 / 100 + 1969 / 400) * secondsPerDay.
Definition internalToUnix : Z := - unixToInternal.

(** [wallToInternal = (1884*365 + 1884/4 - 1884/100 + 1884/400) * secondsPerDay] *)
Definition wallToInternal : Z :=
  (1884 * 365 + 1884 / 4 - 1884 / 100 + 1884 / 400) * secondsPerDay.

Definition hasMonotonic : Z := Z.shiftl 1 63.
Definition nsecMask : Z := Z.shiftl 1 30 - 1.
Definition nsecShift : Z := 30.

(** The zero value [time.Time{}]. *)
Definition zero : Time := mkTime 0 0 nilLoc.

(** [func unixTime(sec int64, nsec int32) Time] *)
Definition unixTime (sec nsec : Z) : Time :=
  mkTime (to_uint64 nsec) (to_int64 (sec + unixToInternal)) Local.

(** [func Unix(sec int64, nsec int64) Time] *)
Definition Unix (sec nsec : Z) : Time :=
  let '(sec, nsec) :=
    if (nsec <? 0) || (nsec >=? 1000000000) then
      let n := Z.quot nsec 1000000000 in
      let sec := to_int64 (sec + n) in
      let nsec := to_int64 (nsec - n * 1000000000) in
      if nsec <? 0
      then (to_int64 (sec - 1), to_int64 (nsec + 1000000000))
      else (sec, nsec)
    else (sec, nsec) in
  unixTime sec (to_int32 nsec).

(** [func (t *Time) nsec() int32] *)
Definition Time_nsec (t : Time) : Z := to_int32 (Z.land (wall t) nsecMask).

(** [func (t *Time) sec() int64] *)
Definition Time_sec (t : Time) : Z :=
  if negb (Z.land (wall t) hasMonotonic =? 0)
  then to_int64 (wallToInternal
                 + to_int64 (Z.shiftr (to_uint64 (Z.shiftl (wall t) 1)) (nsecShift + 1)))
  else ext t.

(** [func (t Time) IsZero() bool] *)
Definition Time_IsZero (t : Time) : bool :=
  (Time_sec t =? 0) && (Time_nsec t =? 0).

(** [func (t Time) Unix() int64] *)
Definition Time_Unix (t : Time) : Z := to_int64 (Time_sec t + internalToUnix).

End time.

(** ** The store *)

(** [type TimestampStore interface { GetTimestamp() int64; StoreTimestamp(timestamp int64) }]

    A store is a state of type [S]; [StoreTimestamp] returns the state after
    the call. *)
Class TimestampStore (S : Type) := {
  GetTimestamp : S -> Z;
  StoreTimestamp : Z -> S -> S
}.

(** [type InMemoryTimestampStore struct { timestamp atomic.Value }]: the
    [atomic.Value] always holds a [time.Time]. *)
Record InMemoryTimestampStore := { timestamp : time.Time }.

Definition NewInMemoryTimestampStore : InMemoryTimestampStore :=
  {| timestamp := time.zero |}.

Definition InMemory_GetTimestamp (i : InMemoryTimestampStore) : Z :=
  let t := timestamp i in
  if time.Time_IsZero t then 0 else time.Time_Unix t.

Definition InMemory_StoreTimestamp (ts : Z) (_ : InMemoryTimestampStore)
  : InMemoryTimestampStore :=
  let t := time.Unix ts 0 in
  {| timestamp := t |}.

#[export] Instance InMemoryTimestampStore_store : TimestampStore InMemoryTimestampStore := {
  GetTimestamp := InMemory_GetTimestamp;
  StoreTimestamp := InMemory_StoreTimestamp
}.

(** [type StubTimestampStore struct { timestamp time.Time; storeCalls []int64 }]
    (the store of the tests: it records every call of [StoreTimestamp]). *)
Record StubTimestampStore := { stub_timestamp : time.Time; storeCalls : list Z }.

Definition Stub_GetTimestamp (s : StubTimestampStore) : Z :=
  if time.Time_IsZero (stub_timestamp s) then 0 else time.Time_Unix (stub_timestamp s).

Definition Stub_StoreTimestamp (ts : Z) (s : StubTimestampStore) : StubTimestampStore :=
  {| stub_timestamp := time.Unix ts 0; storeCalls := (storeCalls s ++ [ts])%list |}.

#[export] Instance StubTimestampStore_store : TimestampStore StubTimestampStore := {
  GetTimestamp := Stub_GetTimestamp;
  StoreTimestamp := Stub_StoreTimestamp
}.

(** ** Bytes *)

Definition byte (c : ascii) : Z := Z.of_N (N_of_ascii c).

(** The newline byte. *)
Definition newline : string := String "010"%char EmptyString.

(** ** Package [strconv] *)

Module strconv.

(** [ErrSyntax], [ErrRange] and the error of [bitSizeError]. *)
Inductive Err := ErrSyntax | ErrRange | ErrBitSize.

(** [const intSize = 32 << (^uint(0) >> 63)], on a 64-bit target. *)
Definition intSize : Z := 64.

Definition maxUint64 : Z := 2 ^ 64 - 1.

(** The base of every conversion of this program. *)
Definition base : Z := 10.

(** [func lower(c byte) byte { return c | ('x' - 'X') }] *)
Definition lower (c : Z) : Z := Z.lor c (byte "x" - byte "X").

(** The [switch] of [ParseUint] that turns a byte into a digit value
    (the case of ['_'] needs base 0). *)
Definition digitVal (c : ascii) : option Z :=
  let c := byte c in
  if (byte "0" <=? c) && (c <=? byte "9") then Some (c - byte "0")
  else if (byte "a" <=? lower c) && (lower c <=? byte "z")
       then Some (lower c - byte "a" + 10)
       else None.

(** [cutoff = maxUint64/10 + 1]: the smallest number such that
    [cutoff*base > maxUint64]. *)
Definition cutoff : Z := maxUint64 / 10 + 1.

(** The loop of [ParseUint] over the bytes of [s], from the value [n]. *)
Fixpoint parseLoop (maxVal : Z) (s : string) (n : Z) : Z * option Err :=
  match s with
  | EmptyString => (n, None)
  | String c s' =>
      match digitVal c with
      | None => (0, Some ErrSyntax)
      | Some d =>
          if d >=? base then (0, Some ErrSyntax)
          else if n >=? cutoff then (maxVal, Some ErrRange)
          else
            let n := to_uint64 (n * base) in
            let n1 := to_uint64 (n + d) in
            if (n1 <? n) || (n1 >? maxVal) then (maxVal, Some ErrRange)
            else parseLoop maxVal s' n1
      end
  end.

(** [func ParseUint(s string, base int, bitSize int) (uint64, error)] at
    base 10. *)
Definition ParseUint (s : string) (bitSize : Z) : Z * option Err :=
  if String.eqb s "" then (0, Some ErrSyntax)
  else
    let run bitSize :=
      let maxVal := to_uint64 (to_uint64 (Z.shiftl 1 bitSize) - 1) in
      parseLoop maxVal s 0 in
    if bitSize =? 0 then run intSize
    else if (bitSize <? 0) || (bitSize >? 64) then (0, Some ErrBitSize)
    else run bitSize.

(** [func ParseInt(s string, base int, bitSize int) (i int64, err error)]
    at base 10. *)
Definition ParseInt (s : string) (bitSize : Z) : Z * option Err :=
  match s with
  | EmptyString => (0, Some ErrSyntax)
  | String c0 rest =>
      let neg := Ascii.eqb c0 "-" in
      let s1 := if Ascii.eqb c0 "+" then rest
                else if Ascii.eqb c0 "-" then rest else s in
      let '(un, err) := ParseUint s1 bitSize in
      let syntax_or_bitsize :=
        match err with
        | Some ErrSyntax | Some ErrBitSize => true
        | _ => false
        end in
      if syntax_or_bitsize then (0, err)
      else
        let bitSize := if bitSize =? 0 then intSize else bitSize in
        let cutoff := to_uint64 (Z.shiftl 1 (bitSize - 1)) in
        if negb neg && (un >=? cutoff)
        then (to_int64 (cutoff - 1), Some ErrRange)
        else if neg && (un >? cutoff)
        then (to_int64 (- to_int64 cutoff), Some ErrRange)
        else
          let n := to_int64 un in
          let n := if neg then to_int64 (- n) else n in
          (n, None)
  end.

(** The decimal digit [d] as a byte. *)
Definition digit (d : Z) : ascii := ascii_of_N (Z.to_N (byte "0" + d)).

(** The digits of [u] in front of [acc], least significant digit first
    ([formatBits] writes the same bytes, two digits at a time); [fuel]
    bounds the number of digits. *)
Fixpoint formatBits (fuel : nat) (u : Z) (acc : string) : string :=
  match fuel with
  | O => acc
  | S fuel' =>
      let acc := String (digit (u mod 10)) acc in
      if u <? 10 then acc else formatBits fuel' (u / 10) acc
  end.

(** [func FormatInt(i int64, base int) string] at base 10: a [uint64]
    has at most 20 decimal digits. *)
Definition FormatInt (i : Z) : string :=
  let neg := i <? 0 in
  let u := to_uint64 i in
  let u := if neg then to_uint64 (- u) else u in
  let s := formatBits 20 u "" in
  if neg then String "-" s else s.

End strconv.

(** ** Package [io] *)

Module io.

(** A request body ([io.ReadCloser]): the bytes it delivers, and whether
    it then fails with an error other than [io.EOF]. *)
Record ReadCloser := { content : string; fails : bool }.

Inductive error := ErrRead.

(** [func ReadAll(r Reader) ([]byte, error)] *)
Definition ReadAll (r : ReadCloser) : string * option error :=
  (content r, if fails r then Some ErrRead else None).

End io.

(** ** Package [path] *)

Module path.

(** The backtracking loop of [Clean] on a [..] element,
    [for out.w > dotdot && out.index(out.w) != '/' { out.w-- }],
    from the index [w]. *)
Fixpoint backtrack (out : list ascii) (dotdot w : nat) : nat :=
  match w with
  | O => O
  | S w' =>
      if (dotdot <? w)%nat && negb (Ascii.eqb (nth w out "/"%char) "/")
      then backtrack out dotdot w'
      else w
  end.

(** The bytes of the next path element and what follows it. *)
Fixpoint element (p : list ascii) : list ascii * list ascii :=
  match p with
  | [] => ([], [])
  | c :: p' =>
      if Ascii.eqb c "/" then ([], p)
      else let '(e, rest) := element p' in (c :: e, rest)
  end.

Definition at_end_or_slash (p : list ascii) : bool :=
  match p with
  | [] => true
  | c :: _ => Ascii.eqb c "/"
  end.

(** The loop [for r < n] of [Clean]: [p] is [path[r:]], [out] the bytes
    written so far ([out.w] is its length).  Every round consumes a byte
    of [p], so [length p] rounds are enough. *)
Fixpoint cleanLoop (fuel : nat) (rooted : bool) (p out : list ascii) (dotdot : nat)
  : list ascii :=
  match fuel, p with
  | O, _ => out
  | _, [] => out
  | S fuel', c :: p1 =>
      if Ascii.eqb c "/" then cleanLoop fuel' rooted p1 out dotdot
      else if Ascii.eqb c "." && at_end_or_slash p1
      then cleanLoop fuel' rooted p1 out dotdot
      else
        match p1 with
        | c1 :: p2 =>
            if Ascii.eqb c "." && Ascii.eqb c1 "." && at_end_or_slash p2 then
              if (dotdot <? length out)%nat then
                let w := backtrack out dotdot (length out - 1) in
                cleanLoop fuel' rooted p2 (firstn w out) dotdot
              else if negb rooted then
                let out := ((if (0 <? length out)%nat
                             then out ++ ["/"%char] else out)
                            ++ ["."%char; "."%char])%list in
                cleanLoop fuel' rooted p2 out (length out)
              else cleanLoop fuel' rooted p2 out dotdot
            else
              let out :=
                if (rooted && negb (length out =? 1)%nat)
                   || (negb rooted && negb (length out =? 0)%nat)
                then (out ++ ["/"%char])%list else out in
              let '(e, rest) := element p in
              cleanLoop fuel' rooted rest (out ++ e)%list dotdot
        | [] =>
            let out :=
              if (rooted && negb (length out =? 1)%nat)
                 || (negb rooted && negb (length out =? 0)%nat)
              then (out ++ ["/"%char])%list else out in
            cleanLoop fuel' rooted [] (out ++ [c])%list dotdot
        end
  end.

(** [func Clean(path string) string] *)
Definition Clean (path : string) : string :=
  match list_ascii_of_string path with
  | [] => "."
  | (c :: p1) as p =>
      let rooted := Ascii.eqb c "/" in
      let out :=
        if rooted then cleanLoop (length p) rooted p1 ["/"%char] 1
        else cleanLoop (length p) rooted p [] 0 in
      match out with
      | [] => "."
      | _ => string_of_list_ascii out
      end
  end.

End path.

(** ** Package [net/url] *)

Module url.

Definition ishex (c : ascii) : bool :=
  let c := byte c in
  ((byte "0" <=? c) && (c <=? byte "9"))
  || ((byte "a" <=? c) && (c <=? byte "f"))
  || ((byte "A" <=? c) && (c <=? byte "F")).

Definition unhex (c : ascii) : Z :=
  let c := byte c in
  if (byte "0" <=? c) && (c <=? byte "9") then c - byte "0"
  else if (byte "a" <=? c) && (c <=? byte "f") then c - byte "a" + 10
  else if (byte "A" <=? c) && (c <=? byte "F") then c - byte "A" + 10
  else 0.

(** [func PathUnescape(s string) (string, error)]: every [%] must be
    followed by two hexadecimal digits, and stands for that byte. *)
Fixpoint PathUnescape (s : string) : option string :=
  match s with
  | EmptyString => Some EmptyString
  | String c rest =>
      if Ascii.eqb c "%" then
        match rest with
        | String a (String b rest') =>
            if ishex a && ishex b
            then option_map
                   (String (ascii_of_N (Z.to_N (Z.lor (Z.shiftl (unhex a) 4) (unhex b)))))
                   (PathUnescape rest')
            else None
        | _ => None
        end
      else option_map (String c) (PathUnescape rest)
  end.

End url.

(** ** Package [net/http] *)

Module http.

Definition StatusOK : Z := 200.
Definition StatusAccepted : Z := 202.
Definition StatusBadRequest : Z := 400.
Definition StatusNotFound : Z := 404.

(** [type Header map[string][]string].  The keys this program uses
    ([Content-Type], [Content-Length], [X-Content-Type-Options],
    [Transfer-Encoding]) are in canonical form already. *)
Abbreviation Header := (gmap string (list string)).

Definition Header_Set (key value : string) (h : Header) : Header :=
  <[key := [value]]> h.

Definition Header_Del (key : string) (h : Header) : Header := delete key h.

Definition Header_Get (key : string) (h : Header) : string :=
  match h !! key with
  | Some (v :: _) => v
  | _ => ""
  end.

(** [type Request struct]: the method, the request target as received,
    [r.URL.EscapedPath()] and the body ([None] is a [nil] body). *)
Record Request := {
  Method : string;
  RequestURI : string;
  EscapedPath : string;
  Body : option io.ReadCloser
}.

Definition last_byte (s : string) : option ascii :=
  List.last (map Some (list_ascii_of_string s)) None.

(** [func cleanPath(p string) string] *)
Definition cleanPath (p : string) : string :=
  match p with
  | EmptyString => "/"
  | String c _ =>
      let p := if negb (Ascii.eqb c "/") then String "/" p else p in
      let np := path.Clean p in
      if match last_byte p with Some l => Ascii.eqb l "/" | None => false end
         && negb (String.eqb np "/")
      then
        if (String.length p =? String.length np + 1)%nat && String.prefix np p
        then p
        else np +:+ "/"
      else np
  end.

(** *** The routing tree of [ServeMux] *)

(** [type segment struct { s string; wild bool; multi bool }] *)
Record segment := { seg_s : string; wild : bool; multi : bool }.

(** [type pattern struct]: the pattern as registered, its method and its
    segments (no pattern of this program names a host). *)
Record pattern := { str : string; method : string; segments : list segment }.

Definition lastSegment (p : pattern) : segment :=
  List.last (segments p) {| seg_s := ""; wild := false; multi := false |}.

(** [type routingNode struct]: a leaf carries its pattern and the handler
    [H] registered for it; [children] maps a key to a child, the child of
    the key [""] being [emptyChild]. *)
#[warnings="-register-all"] Inductive routingNode (H : Type) :=
  Node (leaf : option (pattern * H))
       (children : list (string * routingNode H))
       (multiChild : option (routingNode H)).
Arguments Node {H}.

Definition pathUnescape (p : string) : string :=
  match url.PathUnescape p with
  | Some u => u
  | None => p
  end.

(** The index of the first ['/'] of [s] and the bytes before and from it. *)
Fixpoint cutSlash (s : string) : string * string :=
  match s with
  | EmptyString => ("", "")
  | String c s' =>
      if Ascii.eqb c "/" then ("", s)
      else let '(a, b) := cutSlash s' in (String c a, b)
  end.

(** [func firstSegment(path string) (seg, rest string)] *)
Definition firstSegment (path : string) : string * string :=
  if String.eqb path "/" then ("/", "")
  else
    let path := match path with String _ p => p | EmptyString => "" end in
    let '(seg, rest) := cutSlash path in
    (pathUnescape seg, rest).

(** [func (n *routingNode) matchPath(path string, matches []string)]:
    the leaf that matches [path] below [n], trying the literal child, then
    the single wildcard, then the multi wildcard. *)
Fixpoint matchPath {H} (n : routingNode H) (path : string) : option (pattern * H) :=
  match n with
  | Node leaf children multiChild =>
      if String.eqb path "" then leaf
      else
        let '(seg, rest) := firstSegment path in
        let fix findChild (l : list (string * routingNode H)) (key : string) :=
          match l with
          | [] => None
          | (k, c) :: l' =>
              if String.eqb k key then matchPath c rest else findChild l' key
          end in
        match findChild children seg with
        | Some l => Some l
        | None =>
            match (if negb (String.eqb seg "/") then findChild children "" else None) with
            | Some l => Some l
            | None =>
                match multiChild with
                | Some (Node leaf' _ _) => leaf'
                | None => None
                end
            end
        end
  end.

(** [func (n *routingNode) findChild(key string) *routingNode] *)
Fixpoint findChild {H} (l : list (string * routingNode H)) (key : string)
  : option (routingNode H) :=
  match l with
  | [] => None
  | (k, c) :: l' => if String.eqb k key then Some c else findChild l' key
  end.

Definition matchChild {H} (n : routingNode H) (key path : string)
  : option (pattern * H) :=
  match n with
  | Node _ children _ =>
      match findChild children key with
      | Some c => matchPath c path
      | None => None
      end
  end.

(** [func (n *routingNode) matchMethodAndPath(method, path string)]:
    the exact method first, [GET] for a [HEAD] request, then the patterns
    with no method. *)
Definition matchMethodAndPath {H} (n : routingNode H) (method path : string)
  : option (pattern * H) :=
  match matchChild n method path with
  | Some l => Some l
  | None =>
      match (if String.eqb method "HEAD" then matchChild n "GET" path else None) with
      | Some l => Some l
      | None => matchChild n "" path
      end
  end.

Definition count_slash (s : string) : nat :=
  List.length (filter (fun c => Ascii.eqb c "/") (list_ascii_of_string s)).

(** [func exactMatch(n *routingNode, path string) bool] *)
Definition exactMatch {H} (n : option (pattern * H)) (path : string) : bool :=
  match n with
  | None => false
  | Some (p, _) =>
      if negb (multi (lastSegment p)) then true
      else if match last_byte path with
              | Some l => negb (Ascii.eqb l "/")
              | None => false
              end
      then false
      else (List.length (segments p) =? count_slash path)%nat
  end.

(** [func (mux *ServeMux) matchOrRedirect(host, method, path string, u *url.URL)]
    on the tree [tree] of the patterns without a host: the matching leaf,
    and whether the mux redirects to [path] with a trailing slash instead
    ([withURL] tells that [u] is not [nil]). *)
Definition matchOrRedirect {H} (tree : routingNode H) (method path : string)
    (withURL : bool) : option (pattern * H) * bool :=
  let n := matchMethodAndPath tree method path in
  if negb (exactMatch n path) && withURL
     && negb match last_byte path with Some l => Ascii.eqb l "/" | None => false end
  then
    let path := path +:+ "/" in
    let n2 := matchMethodAndPath tree method path in
    if exactMatch n2 path then (None, true) else (n, false)
  else (n, false).

(** What [ServeMux.findHandler] decides for a request. *)
Inductive Route (H : Type) :=
| RouteHandler (h : H)   (** a registered handler *)
| RouteRedirect          (** a redirect to the cleaned path, by the mux *)
| RouteError.            (** no pattern matches: the 404 or 405 of the mux *)
Arguments RouteHandler {H}.
Arguments RouteRedirect {H}.
Arguments RouteError {H}.

Definition routeOf {H} (n : option (pattern * H)) : Route H :=
  match n with
  | Some (_, h) => RouteHandler h
  | None => RouteError
  end.

(** [func (mux *ServeMux) findHandler(r *Request)].  For a [CONNECT]
    request with an empty path the answer of the mux (a redirect here) is
    its own error in some releases; no handler runs in either case. *)
Definition findHandler {H} (tree : routingNode H) (r : Request) : Route H :=
  let escapedPath := EscapedPath r in
  if String.eqb (Method r) "CONNECT" then
    let '(_, u) := matchOrRedirect tree (Method r) escapedPath true in
    if u then RouteRedirect
    else routeOf (fst (matchOrRedirect tree (Method r) escapedPath false))
  else
    let path := cleanPath escapedPath in
    let '(n, u) := matchOrRedirect tree (Method r) path true in
    if u then RouteRedirect
    else if negb (String.eqb path escapedPath) then RouteRedirect
    else routeOf n.

End http.

(** ** Package [net/http/httptest] *)

Module httptest.

(** [type ResponseRecorder struct]: the [http.ResponseWriter] of the tests.
    [Code] is the status, [HeaderMap] the map that [Header()] returns,
    [Body] the bytes written, [snapHeader] the headers as they were when the
    status line was written.  [sniffed = Some b] records that the first
    [Write] found no [Content-Type] and set it to [DetectContentType(b)]
    (a function this development does not define). *)
Record ResponseRecorder := {
  Code : Z;
  HeaderMap : http.Header;
  Body : string;
  wroteHeader : bool;
  snapHeader : option http.Header;
  sniffed : option string
}.

(** [func NewRecorder() *ResponseRecorder] *)
Definition NewRecorder : ResponseRecorder :=
  {| Code := 200; HeaderMap := ∅; Body := ""; wroteHeader := false;
     snapHeader := None; sniffed := None |}.

(** [w.Header().Set(key, value)] *)
Definition Header_Set (key value : string) (rw : ResponseRecorder) : ResponseRecorder :=
  {| Code := Code rw; HeaderMap := http.Header_Set key value (HeaderMap rw);
     Body := Body rw; wroteHeader := wroteHeader rw;
     snapHeader := snapHeader rw; sniffed := sniffed rw |}.

(** [w.Header().Del(key)] *)
Definition Header_Del (key : string) (rw : ResponseRecorder) : ResponseRecorder :=
  {| Code := Code rw; HeaderMap := http.Header_Del key (HeaderMap rw);
     Body := Body rw; wroteHeader := wroteHeader rw;
     snapHeader := snapHeader rw; sniffed := sniffed rw |}.

(** [func (rw *ResponseRecorder) WriteHeader(code int)] (every status of
    this program is a valid one, so that [checkWriteHeaderCode] passes). *)
Definition WriteHeader (code : Z) (rw : ResponseRecorder) : ResponseRecorder :=
  if wroteHeader rw then rw
  else
    {| Code := code; HeaderMap := HeaderMap rw; Body := Body rw;
       wroteHeader := true; snapHeader := Some (HeaderMap rw);
       sniffed := sniffed rw |}.

(** [func (rw *ResponseRecorder) writeHeader(b []byte, str string)] *)
Definition writeHeader (b : string) (rw : ResponseRecorder) : ResponseRecorder :=
  if wroteHeader rw then rw
  else
    let m := HeaderMap rw in
    let hasType := match m !! "Content-Type" with Some _ => true | None => false end in
    let hasTE := negb (String.eqb (http.Header_Get "Transfer-Encoding" m) "") in
    let rw :=
      if negb hasType && negb hasTE
      then {| Code := Code rw; HeaderMap := HeaderMap rw; Body := Body rw;
              wroteHeader := wroteHeader rw; snapHeader := snapHeader rw;
              sniffed := Some b |}
      else rw in
    WriteHeader 200 rw.

(** [func (rw *ResponseRecorder) Write(buf []byte) (int, error)] *)
Definition Write (buf : string) (rw : ResponseRecorder) : ResponseRecorder :=
  let rw := writeHeader buf rw in
  {| Code := Code rw; HeaderMap := HeaderMap rw; Body := Body rw +:+ buf;
     wroteHeader := wroteHeader rw; snapHeader := snapHeader rw;
     sniffed := sniffed rw |}.

(** The headers of the recorded response, as [Result()] returns them: the
    snapshot taken when the status line was written, the header map when it
    never was. *)
Definition Result_Header (rw : ResponseRecorder) : http.Header :=
  match snapHeader rw with
  | Some h => h
  | None => HeaderMap rw
  end.

(** The response carries exactly the [Content-Type] value [v]. *)
Definition hasContentType (rw : ResponseRecorder) (v : string) : Prop :=
  sniffed rw = None /\ Result_Header rw !! "Content-Type" = Some [v].

(** The response carries no [Content-Type] at all. *)
Definition noContentType (rw : ResponseRecorder) : Prop :=
  sniffed rw = None /\ Result_Header rw !! "Content-Type" = None.

End httptest.

(** ** [io.Writer] and package [fmt] *)

(** [type Writer interface { Write(p []byte) (n int, err error) }] *)
Class Writer (W : Type) := Write : string -> W -> W.

(** [bytes.Buffer] *)
#[export] Instance Buffer_Writer : Writer string := fun p b => b +:+ p.

#[export] Instance ResponseRecorder_Writer : Writer httptest.ResponseRecorder :=
  httptest.Write.

Module fmt.

(** [fmt.Fprint(w, s)] for a string operand. *)
Definition Fprint_string {W} `{Writer W} (w : W) (s : string) : W := Write s w.

(** [fmt.Fprint(w, i)] for an [int64] operand: the verb [%v] prints it in
    base 10, as [strconv.FormatInt] does. *)
Definition Fprint_int64 {W} `{Writer W} (w : W) (i : Z) : W :=
  Write (strconv.FormatInt i) w.

(** [fmt.Fprintln(w, s)] for a string operand. *)
Definition Fprintln {W} `{Writer W} (w : W) (s : string) : W :=
  Write (s +:+ newline) w.

End fmt.

(** [func Error(w ResponseWriter, error string, code int)] of [net/http] *)
Definition http_Error (w : httptest.ResponseRecorder) (error : string) (code : Z)
  : httptest.ResponseRecorder :=
  let w := httptest.Header_Del "Content-Length" w in
  let w := httptest.Header_Set "Content-Type" "text/plain; charset=utf-8" w in
  let w := httptest.Header_Set "X-Content-Type-Options" "nosniff" w in
  let w := httptest.WriteHeader code w in
  fmt.Fprintln w error.

(** ** Package [main] *)

Definition notFoundMessage : string := "404 - Page not found".
Definition contentTypeTextPlain : string := "text/plain".

(** [type Client struct { store TimestampStore; out io.Writer }] *)
Record Client (S W : Type) := { store : S; out : W }.
Arguments store {S W}.
Arguments out {S W}.

(** [func (c *Client) Run(timestamp int64)] *)
Definition Run {S W} `{TimestampStore S} `{Writer W} (c : Client S W) (timestamp : Z)
  : Client S W :=
  let store := StoreTimestamp timestamp (store c) in
  let storedTimestamp := GetTimestamp store in
  let storedTimestampStr := strconv.FormatInt storedTimestamp in
  {| store := store; out := fmt.Fprintln (out c) storedTimestampStr |}.

(** [http.HandlerFunc], with the state of the store that the handler's
    server holds passed in and out. *)
Definition HandlerFunc (S : Type) : Type :=
  S -> httptest.ResponseRecorder -> http.Request -> S * httptest.ResponseRecorder.

Section Server.

Context {S : Type} `{TimestampStore S}.

(** [func (t *TimestampServer) getTimestamp() http.HandlerFunc] *)
Definition getTimestamp : HandlerFunc S := fun t w _ =>
  let w := httptest.Header_Set "Content-Type" contentTypeTextPlain w in
  let timestamp := GetTimestamp t in
  let w := if timestamp =? 0 then httptest.WriteHeader http.StatusNotFound w else w in
  (t, fmt.Fprint_int64 w timestamp).

(** [func (t *TimestampServer) storeTimestamp() http.HandlerFunc] *)
Definition storeTimestamp : HandlerFunc S := fun t w r =>
  match http.Body r with
  | Some body =>
      let '(bodyBytes, err) := io.ReadAll body in
      match err with
      | Some _ => (t, http_Error w "Invalid request body" http.StatusBadRequest)
      | None =>
          let '(timestamp, err) := strconv.ParseInt bodyBytes 0 in
          match err with
          | Some _ => (t, http_Error w "Invalid request body" http.StatusBadRequest)
          | None =>
              let t := StoreTimestamp timestamp t in
              (t, httptest.WriteHeader http.StatusAccepted w)
          end
      end
  | None => (t, w)
  end.

(** [func (t *TimestampServer) notFoundHandler() http.HandlerFunc] *)
Definition notFoundHandler : HandlerFunc S := fun t w r =>
  let w := httptest.Header_Set "Content-Type" contentTypeTextPlain w in
  let w := httptest.WriteHeader http.StatusNotFound w in
  (t, fmt.Fprint_string w notFoundMessage).

Definition leaf (p : http.pattern) (h : HandlerFunc S) : http.routingNode (HandlerFunc S) :=
  http.Node (Some (p, h)) [] None.

(** [func NewTimestampServer(store TimestampStore) *TimestampServer]: the
    routing tree after the three calls of [router.HandleFunc], below the
    node of the patterns without a host.  ["/"] is a trailing-slash pattern
    (one multi wildcard) of any method, ["GET /timestamp"] and
    ["POST /timestamp"] have the single literal segment [timestamp]. *)
Definition NewTimestampServer : http.routingNode (HandlerFunc S) :=
  http.Node None
    [ ("", http.Node None []
             (Some (leaf {| http.str := "/"; http.method := "";
                            http.segments :=
                              [ {| http.seg_s := ""; http.wild := true;
                                   http.multi := true |} ] |}
                         notFoundHandler)));
      ("GET", http.Node None
                [ ("timestamp",
                   leaf {| http.str := "GET /timestamp"; http.method := "GET";
                           http.segments :=
                             [ {| http.seg_s := "timestamp"; http.wild := false;
                                  http.multi := false |} ] |}
                        getTimestamp) ]
                None);
      ("POST", http.Node None
                 [ ("timestamp",
                    leaf {| http.str := "POST /timestamp"; http.method := "POST";
                            http.segments :=
                              [ {| http.seg_s := "timestamp"; http.wild := false;
                                   http.multi := false |} ] |}
                         storeTimestamp) ]
                 None) ]
    None.

(** [func (mux *ServeMux) ServeHTTP(w ResponseWriter, r *Request)] on the
    server's mux, from the store [t]: the store and the recorder after the
    registered handler ran.  [None]: the mux answers by itself (the request
    target is [*], a redirect, its own error) and no handler of this
    program runs. *)
Definition ServeHTTP (t : S) (w : httptest.ResponseRecorder) (r : http.Request)
  : option (S * httptest.ResponseRecorder) :=
  if String.eqb (http.RequestURI r) "*" then None
  else
    match http.findHandler NewTimestampServer r with
    | http.RouteHandler h => Some (h t w r)
    | _ => None
    end.

End Server.

(** A request as [http.NewRequest(method, path, body)] builds it, for a
    method that is not empty and a URL that is a path alone (no query, no
    fragment, no host): the tests of the package build no other. *)
Definition NewRequest (method path : string) (body : option string) : http.Request :=
  {| http.Method := method; http.RequestURI := ""; http.EscapedPath := path;
     http.Body := option_map (fun b => {| io.content := b; io.fails := false |}) body |}.

(** The two requests of the round trip: [POST /timestamp] with the decimal
    text of [v] as its body, then [GET /timestamp]; the result is the
    recorder of the [GET]. *)
Definition post_then_get {S} `{TimestampStore S} (t : S) (v : Z)
  : option httptest.ResponseRecorder :=
  match ServeHTTP t httptest.NewRecorder
          (NewRequest "POST" "/timestamp" (Some (strconv.FormatInt v))) with
  | Some (t1, _) =>
      match ServeHTTP t1 httptest.NewRecorder (NewRequest "GET" "/timestamp" None) with
      | Some (_, w) => Some w
      | None => None
      end
  | None => None
  end.

(** The paths that the patterns ["GET /timestamp"] and ["POST /timestamp"]
    match: one segment that unescapes to [timestamp], and nothing after. *)
Definition timestampPath (path : string) : bool :=
  negb (String.eqb path "")
  && let '(seg, rest) := http.firstSegment path in
     String.eqb "timestamp" seg && String.eqb rest "".

(** The paths without a percent-escape. *)
Fixpoint plain (s : string) : bool :=
  match s with
  | EmptyString => true
  | String c s' => negb (Ascii.eqb c "%") && plain s'
  end.

(** The requests that the mux gives to [getTimestamp] (a [GET] pattern
    matches [HEAD] requests too) and to [storeTimestamp]. *)
Definition isGetTimestamp (r : http.Request) : bool :=
  timestampPath (http.EscapedPath r)
  && (String.eqb "GET" (http.Method r) || String.eqb (http.Method r) "HEAD").

Definition isPostTimestamp (r : http.Request) : bool :=
  timestampPath (http.EscapedPath r) && String.eqb "POST" (http.Method r).

(** The status and the body of a served request. *)
Definition response {S} (served : option (S * httptest.ResponseRecorder))
  : option (Z * string) :=
  match served with
  | Some (_, w) => Some (httptest.Code w, httptest.Body w)
  | None => None
  end.

(** ** Sequences of requests *)

(** The store after the server has served the requests [rs] one after the
    other, each with a fresh recorder (a request that the mux answers by
    itself runs no handler). *)
Fixpoint serveAll {S} `{TimestampStore S} (t : S) (rs : list http.Request) : S :=
  match rs with
  | [] => t
  | r :: rs' =>
      match ServeHTTP t httptest.NewRecorder r with
      | Some (t', _) => serveAll t' rs'
      | None => serveAll t rs'
      end
  end.

(** ** Decimal texts *)

(** [z] is an [int64] value. *)
Definition in_int64 (z : Z) : bool := (- 2 ^ 63 <=? z) && (z <? 2 ^ 63).

(** The bytes ['0'] to ['9']. *)
Definition isDigit (c : ascii) : bool := (byte "0" <=? byte c) && (byte c <=? byte "9").

Fixpoint allDigits (s : string) : bool :=
  match s with
  | EmptyString => true
  | String c s' => isDigit c && allDigits s'
  end.

(** The number that the digits [s] denote after the digits of [n]. *)
Fixpoint digitsValue (s : string) (n : Z) : Z :=
  match s with
  | EmptyString => n
  | String c s' => digitsValue s' (n * 10 + (byte c - byte "0"))
  end.

(** The integer that a decimal text denotes: an optional sign and one or
    more digits; [None] for every other text. *)
Definition decimalInt (s : string) : option Z :=
  let '(neg, ds) :=
    match s with
    | String c rest =>
        if Ascii.eqb c "-" then (true, rest)
        else if Ascii.eqb c "+" then (false, rest)
        else (false, s)
    | EmptyString => (false, s)
    end in
  if negb (String.eqb ds "") && allDigits ds
  then Some (if neg then - digitsValue ds 0 else digitsValue ds 0)
  else None.

(** The decimal texts in canonical form: [0], or digits that do not start
    with [0], with a minus sign in front of them for a negative number (no
    plus sign, no leading zero, no [-0]). *)
Definition canonicalDigits (s : string) : bool :=
  match s with
  | String c rest => isDigit c && negb (Ascii.eqb c "0") && allDigits rest
  | EmptyString => false
  end.

Definition canonicalDecimal (s : string) : bool :=
  String.eqb s "0"
  || canonicalDigits s
  || match s with
     | String c rest => Ascii.eqb c "-" && canonicalDigits rest
     | EmptyString => false
     end.

(** ** Package [strings] *)

Module strings.

(** [func HasSuffix(s, suffix string) bool] *)
Definition HasSuffix (s suffix : string) : bool :=
  (String.length suffix <=? String.length s)%nat
  && String.eqb (substring (String.length s - String.length suffix)
                           (String.length suffix) s) suffix.

(** [func TrimSuffix(s, suffix string) string] *)
Definition TrimSuffix (s suffix : string) : string :=
  if HasSuffix s suffix
  then substring 0 (String.length s - String.length suffix) s
  else s.

End strings.

(** ** The tests of the package *)

Module testing.

(** An operand of [t.Errorf] or [t.Error]. *)
Inductive Arg :=
| ArgInt (z : Z)
| ArgString (s : string)
| ArgError (e : strconv.Err).

(** A failure that a test reported: the call of [t.Errorf] with its format
    and its operands, or of [t.Error] with its operands. *)
Inductive Failure :=
| Errorf (format : string) (args : list Arg)
| Error (args : list Arg).

(** [testing.TB]: the failures reported so far, the oldest first.  A test
    passes when it ends with none. *)
Definition TB : Type := list Failure.

End testing.

(** [func assertTimestamp(t testing.TB, got, want int64)] *)
Definition assertTimestamp (t : testing.TB) (got want : Z) : testing.TB :=
  if negb (got =? want)
  then (t ++ [testing.Errorf "haven't got the right timestamp, got %d want %d"
                [testing.ArgInt got; testing.ArgInt want]])%list
  else t.

(** [func assertStatus(t testing.TB, got, want int)] *)
Definition assertStatus (t : testing.TB) (got want : Z) : testing.TB :=
  if negb (got =? want)
  then (t ++ [testing.Errorf "haven't got the expected status, got %d want %d"
                [testing.ArgInt got; testing.ArgInt want]])%list
  else t.

(** [func assertResponseBody(t testing.TB, response *httptest.ResponseRecorder, want int64)] *)
Definition assertResponseBody (t : testing.TB) (response : httptest.ResponseRecorder)
    (want : Z) : testing.TB :=
  let '(timestamp, err) := strconv.ParseInt (httptest.Body response) 0 in
  let t :=
    match err with
    | Some e =>
        (t ++ [testing.Errorf "failed to parse response body to int64, %v"
                 [testing.ArgError e]])%list
    | None => t
    end in
  if negb (timestamp =? want)
  then (t ++ [testing.Errorf "haven't got the expected timestamp, got %d want %d"
                [testing.ArgInt timestamp; testing.ArgInt want]])%list
  else t.

(** [func assertNoError(t testing.TB, err error)] *)
Definition assertNoError (t : testing.TB) (err : option strconv.Err) : testing.TB :=
  match err with
  | Some e =>
      (t ++ [testing.Errorf "not expected but got error, %s" [testing.ArgError e]])%list
  | None => t
  end.

(** [func newGetTimestampRequest() *http.Request] *)
Definition newGetTimestampRequest : http.Request := NewRequest "GET" "/timestamp" None.

(** [func newPostTimestampRequest(timestamp int64) *http.Request] *)
Definition newPostTimestampRequest (timestamp : Z) : http.Request :=
  let timestampStr := strconv.FormatInt timestamp in
  NewRequest "POST" "/timestamp" (Some timestampStr).

(** [func storeAndRetireve(t testing.TB, server *TimestampServer, timestamp int64) (int64, error)]:
    the failures, the server's store and the two results.  [None]: the mux
    answers one of the two requests by itself. *)
Definition storeAndRetireve {S} `{TimestampStore S}
    (t : testing.TB) (server : S) (timestamp : Z)
  : option (testing.TB * S * (Z * option strconv.Err)) :=
  match ServeHTTP server httptest.NewRecorder (newPostTimestampRequest timestamp) with
  | Some (server, response) =>
      let t := assertStatus t (httptest.Code response) http.StatusAccepted in
      match ServeHTTP server httptest.NewRecorder newGetTimestampRequest with
      | Some (server, response) =>
          let t := assertStatus t (httptest.Code response) http.StatusOK in
          Some (t, server, strconv.ParseInt (httptest.Body response) 0)
      | None => None
      end
  | None => None
  end.

(** The subtest ["test if it stores timestamp when POST"] of
    [TestTimestampServerStore], for the [timestamp] that [time.Now().Unix()]
    gives.  [None]: the test panics on [store.storeCalls[0]], or the mux
    answers the request by itself. *)
Definition TestTimestampServerStore (t : testing.TB) (timestamp : Z) : option testing.TB :=
  let store := {| stub_timestamp := time.zero; storeCalls := [] |} in
  let request := newPostTimestampRequest timestamp in
  match ServeHTTP store httptest.NewRecorder request with
  | Some (store, response) =>
      let t := assertStatus t (httptest.Code response) http.StatusAccepted in
      let t :=
        if negb (length (storeCalls store) =? 1)%nat
        then (t ++ [testing.Errorf "got %d calls to StoreTimestamp want %d"
                      [testing.ArgInt (Z.of_nat (length (storeCalls store)));
                       testing.ArgInt 1]])%list
        else t in
      match storeCalls store with
      | call0 :: _ =>
          Some (if negb (call0 =? timestamp)
                then (t ++ [testing.Errorf
                              "failed to get the right timestamp, got %d want %d"
                              [testing.ArgInt call0; testing.ArgInt timestamp]])%list
                else t)
      | [] => None
      end
  | None => None
  end.

(** The subtest ["test store and retrieve"] of [TestStoreAndRetrieve], for
    the [timestamp] that [time.Now().Add(time.Second).Unix()] gives. *)
Definition TestStoreAndRetrieve (t : testing.TB) (timestamp : Z) : option testing.TB :=
  let store := NewInMemoryTimestampStore in
  match storeAndRetireve t store timestamp with
  | Some (t, _, (gotTimestamp, err)) =>
      let t := assertNoError t err in
      Some (assertTimestamp t gotTimestamp timestamp)
  | None => None
  end.

(** The subtest of [TestClient], for the [timestamp] that
    [time.Now().Add(time.Minute).Unix()] gives.  [None]: the test panics on
    [timestampStore.storeCalls[0]]. *)
Definition TestClient (t : testing.TB) (timestamp : Z) : option testing.TB :=
  let timestampStore := {| stub_timestamp := time.zero; storeCalls := [] |} in
  let client := {| store := timestampStore; out := EmptyString |} in
  let client := Run client timestamp in
  let t :=
    if negb (length (storeCalls (store client)) =? 1)%nat
    then (t ++ [testing.Error
                  [testing.ArgString "expected store call but haven't got any"]])%list
    else t in
  match storeCalls (store client) with
  | got :: _ =>
      let t := assertTimestamp t got timestamp in
      let timestampStr := strconv.FormatInt timestamp in
      Some (if negb (String.eqb (strings.TrimSuffix (out client) newline) timestampStr)
            then (t ++ [testing.Errorf "haven't got the right timestamp, got %q want %q"
                          [testing.ArgString (out client);
                           testing.ArgString timestampStr]])%list
            else t)
  | [] => None
  end.

(** ** The routes of the server *)

(** The three handlers that [NewTimestampServer] registers. *)
Inductive Handler := NotFoundHandler | GetTimestampHandler | StoreTimestampHandler.

Definition handlerOf {S} `{TimestampStore S} (k : Handler) : HandlerFunc S :=
  match k with
  | NotFoundHandler => notFoundHandler
  | GetTimestampHandler => getTimestamp
  | StoreTimestampHandler => storeTimestamp
  end.

(** The patterns ["/"], ["GET /timestamp"] and ["POST /timestamp"]. *)
Definition pattern_root : http.pattern :=
  {| http.str := "/"; http.method := "";
     http.segments := [ {| http.seg_s := ""; http.wild := true; http.multi := true |} ] |}.

Definition pattern_get : http.pattern :=
  {| http.str := "GET /timestamp"; http.method := "GET";
     http.segments :=
       [ {| http.seg_s := "timestamp"; http.wild := false; http.multi := false |} ] |}.

Definition pattern_post : http.pattern :=
  {| http.str := "POST /timestamp"; http.method := "POST";
     http.segments :=
       [ {| http.seg_s := "timestamp"; http.wild := false; http.multi := false |} ] |}.

(** The routing tree of the three patterns, for any kind of handler. *)
Definition routes {H} (root get post : H) : http.routingNode H :=
  http.Node None
    [ ("", http.Node None [] (Some (http.Node (Some (pattern_root, root)) [] None)));
      ("GET", http.Node None
                [ ("timestamp", http.Node (Some (pattern_get, get)) [] None) ] None);
      ("POST", http.Node None
                 [ ("timestamp", http.Node (Some (pattern_post, post)) [] None) ] None) ]
    None.

(** A route with its handler replaced by [f] of it. *)
Definition route_map {H H'} (f : H -> H') (x : http.Route H) : http.Route H' :=
  match x with
  | http.RouteHandler h => http.RouteHandler (f h)
  | http.RouteRedirect => http.RouteRedirect
  | http.RouteError => http.RouteError
  end.

(** The handler that serves a request, whatever the store: [None] when the
    mux answers by itself. *)
Definition target (r : http.Request) : option Handler :=
  if String.eqb (http.RequestURI r) "*" then None
  else
    match http.findHandler
            (routes NotFoundHandler GetTimestampHandler StoreTimestampHandler) r with
    | http.RouteHandler k => Some k
    | _ => None
    end.

(** The value that a request makes the server store: the one that
    [storeTimestamp] parses from the body, when the request reaches that
    handler with a body that is read in full. *)
Definition accepted (r : http.Request) : option Z :=
  match target r with
  | Some StoreTimestampHandler =>
      match http.Body r with
      | Some b =>
          if io.fails b then None
          else
            match strconv.ParseInt (io.content b) 0 with
            | (v, None) => Some v
            | (_, Some _) => None
            end
      | None => None
      end
  | _ => None
  end.

(** * Properties *)

(** ** Machine integers and [time] *)

Lemma to_int64_id z : int64 z -> to_int64 z = z.
Proof.
  unfold int64, to_int64. intros Hz.
  rewrite Z.mod_small by lia. lia.
Qed.

Lemma to_int64_range z : int64 (to_int64 z).
Proof.
  unfold int64, to_int64.
  pose proof (Z.mod_pos_bound (z + 2 ^ 63) (2 ^ 64) ltac:(lia)). lia.
Qed.

Lemma to_int64_add_sub z k : int64 z -> to_int64 (to_int64 (z + k) - k) = z.
Proof.
  unfold int64, to_int64. intros Hz.
  replace ((z + k + 2 ^ 63) mod 2 ^ 64 - 2 ^ 63 - k + 2 ^ 63)
    with ((z + k + 2 ^ 63) mod 2 ^ 64 - k) by lia.
  rewrite Zminus_mod_idemp_l.
  replace (z + k + 2 ^ 63 - k) with (z + 2 ^ 63) by lia.
  rewrite Z.mod_small by lia. lia.
Qed.

Lemma Unix_zero_nsec sec :
  time.Unix sec 0 =
  time.mkTime 0 (to_int64 (sec + time.unixToInternal)) time.Local.
Proof. reflexivity. Qed.

Lemma Time_sec_Unix sec :
  time.Time_sec (time.Unix sec 0) = to_int64 (sec + time.unixToInternal).
Proof. reflexivity. Qed.

Lemma Time_IsZero_Unix sec :
  int64 sec ->
  time.Time_IsZero (time.Unix sec 0) = (sec =? - time.unixToInternal).
Proof.
  intros Hs. unfold time.Time_IsZero. rewrite Time_sec_Unix.
  change (time.Time_nsec (time.Unix sec 0) =? 0) with true.
  rewrite andb_true_r.
  change (- time.unixToInternal) with (-62135596800).
  change time.unixToInternal with 62135596800.
  unfold int64, to_int64 in *.
  destruct (Z.eqb_spec sec (- 62135596800)) as [-> | Hne].
  - reflexivity.
  - apply Z.eqb_neq. intros Heq.
    destruct (Z_lt_le_dec (sec + 62135596800) (2 ^ 63)) as [Hlt | Hge].
    + rewrite Z.mod_small in Heq by lia. lia.
    + replace (sec + 62135596800 + 2 ^ 63)
        with (sec + 62135596800 - 2 ^ 63 + 1 * 2 ^ 64) in Heq by lia.
      rewrite Z_mod_plus_full, Z.mod_small in Heq by lia. lia.
Qed.

Lemma Time_Unix_Unix sec : int64 sec -> time.Time_Unix (time.Unix sec 0) = sec.
Proof.
  intros Hs. unfold time.Time_Unix. rewrite Time_sec_Unix.
  unfold time.internalToUnix.
  replace (to_int64 (sec + time.unixToInternal) + - time.unixToInternal)
    with (to_int64 (sec + time.unixToInternal) - time.unixToInternal) by lia.
  now apply to_int64_add_sub.
Qed.

(** ** The stores *)

Lemma InMemory_get_store v (i : InMemoryTimestampStore) :
  int64 v ->
  GetTimestamp (StoreTimestamp v i) = if v =? - time.unixToInternal then 0 else v.
Proof.
  intros Hv. cbn [GetTimestamp StoreTimestamp InMemoryTimestampStore_store].
  unfold InMemory_GetTimestamp, InMemory_StoreTimestamp. cbn [timestamp].
  rewrite Time_IsZero_Unix by assumption.
  destruct (Z.eqb_spec v (- time.unixToInternal)); [reflexivity|].
  now apply Time_Unix_Unix.
Qed.

(** ** [strconv]: parsing what [FormatInt] wrote *)

Lemma digitVal_digit d : 0 <= d < 10 -> strconv.digitVal (strconv.digit d) = Some d.
Proof.
  intros Hd.
  assert (Hcases : d = 0 \/ d = 1 \/ d = 2 \/ d = 3 \/ d = 4 \/
                   d = 5 \/ d = 6 \/ d = 7 \/ d = 8 \/ d = 9) by lia.
  repeat (destruct Hcases as [-> | Hcases]; [reflexivity|]).
  subst d. reflexivity.
Qed.

Lemma digit_not_sign d :
  0 <= d < 10 ->
  Ascii.eqb (strconv.digit d) "+" = false /\ Ascii.eqb (strconv.digit d) "-" = false.
Proof.
  intros Hd.
  assert (Hcases : d = 0 \/ d = 1 \/ d = 2 \/ d = 3 \/ d = 4 \/
                   d = 5 \/ d = 6 \/ d = 7 \/ d = 8 \/ d = 9) by lia.
  repeat (destruct Hcases as [-> | Hcases]; [split; reflexivity|]).
  subst d. split; reflexivity.
Qed.

Lemma parseLoop_digit M d s n :
  0 <= d < 10 -> 0 <= n -> n * 10 + d <= M -> M <= strconv.maxUint64 ->
  strconv.parseLoop M (String (strconv.digit d) s) n
  = strconv.parseLoop M s (n * 10 + d).
Proof.
  intros Hd Hn Hle HM. cbn [strconv.parseLoop].
  rewrite digitVal_digit by assumption.
  unfold strconv.base, to_uint64.
  change strconv.cutoff with 1844674407370955162.
  change strconv.maxUint64 with 18446744073709551615 in HM.
  destruct (Z.geb_spec d 10); [lia|].
  destruct (Z.geb_spec n 1844674407370955162); [lia|].
  rewrite (Z.mod_small (n * 10)) by lia.
  rewrite (Z.mod_small (n * 10 + d)) by lia.
  destruct (Z.ltb_spec (n * 10 + d) (n * 10)); [lia|].
  destruct (Z.gtb_spec (n * 10 + d) M); [lia|].
  reflexivity.
Qed.

Lemma parseLoop_formatBits M fuel :
  M <= strconv.maxUint64 ->
  forall u acc,
    0 <= u < 10 ^ Z.of_nat fuel -> u <= M ->
    strconv.parseLoop M (strconv.formatBits fuel u acc) 0 = strconv.parseLoop M acc u.
Proof.
  intros HM. induction fuel as [|fuel IH]; intros u acc Hu HuM.
  - cbn in Hu. replace u with 0 by lia. reflexivity.
  - rewrite Nat2Z.inj_succ, Z.pow_succ_r in Hu by lia.
    cbn [strconv.formatBits].
    destruct (Z.ltb_spec u 10) as [Hlt | Hge].
    + rewrite Z.mod_small by lia.
      rewrite parseLoop_digit by lia. reflexivity.
    + pose proof (Z.div_mod u 10 ltac:(lia)) as Hdm.
      pose proof (Z.mod_pos_bound u 10 ltac:(lia)) as Hmod.
      rewrite IH by lia.
      rewrite parseLoop_digit by lia.
      f_equal. lia.
Qed.

Lemma formatBits_digit_head fuel :
  forall u acc d rest,
    0 <= d < 10 -> acc = String (strconv.digit d) rest ->
    exists d' rest', 0 <= d' < 10
                     /\ strconv.formatBits fuel u acc = String (strconv.digit d') rest'.
Proof.
  induction fuel as [|fuel IH]; intros u acc d rest Hd ->.
  - exists d, rest. split; [assumption | reflexivity].
  - cbn [strconv.formatBits].
    pose proof (Z.mod_pos_bound u 10 ltac:(lia)) as Hmod.
    destruct (u <? 10).
    + eexists _, _. split; [exact Hmod | reflexivity].
    + eapply IH; [exact Hmod | reflexivity].
Qed.

Lemma formatBits_head fuel u :
  exists d rest, 0 <= d < 10
                 /\ strconv.formatBits (S fuel) u "" = String (strconv.digit d) rest.
Proof.
  cbn [strconv.formatBits].
  pose proof (Z.mod_pos_bound u 10 ltac:(lia)) as Hmod.
  destruct (u <? 10).
  - eexists _, _. split; [exact Hmod | reflexivity].
  - eapply formatBits_digit_head; [exact Hmod | reflexivity].
Qed.

Lemma ParseUint_formatBits u :
  0 <= u <= strconv.maxUint64 ->
  strconv.ParseUint (strconv.formatBits 20 u "") 0 = (u, None).
Proof.
  intros Hu. unfold strconv.ParseUint.
  destruct (formatBits_head 19 u) as (d & rest & Hd & Heq).
  rewrite Heq at 1. cbn [String.eqb]. cbn [Z.eqb].
  change (to_uint64 (to_uint64 (Z.shiftl 1 strconv.intSize) - 1))
    with strconv.maxUint64.
  rewrite parseLoop_formatBits.
  - reflexivity.
  - lia.
  - change strconv.maxUint64 with 18446744073709551615 in Hu.
    change (10 ^ Z.of_nat 20) with 100000000000000000000. lia.
  - lia.
Qed.

Lemma ParseInt_FormatInt v :
  int64 v -> strconv.ParseInt (strconv.FormatInt v) 0 = (v, None).
Proof.
  intros Hv. unfold int64 in Hv. unfold strconv.FormatInt.
  destruct (Z.ltb_spec v 0) as [Hneg | Hpos].
  - assert (Hu : to_uint64 (- to_uint64 v) = - v).
    { unfold to_uint64.
      replace v with (v + 2 ^ 64 + (-1) * 2 ^ 64) at 1 by lia.
      rewrite Z_mod_plus_full, (Z.mod_small (v + 2 ^ 64)) by lia.
      replace (- (v + 2 ^ 64)) with (- v + (-1) * 2 ^ 64) by lia.
      rewrite Z_mod_plus_full, Z.mod_small by lia. reflexivity. }
    rewrite Hu. unfold strconv.ParseInt. cbv beta iota.
    change (Ascii.eqb "-" "-") with true. change (Ascii.eqb "-" "+") with false.
    cbv beta iota.
    rewrite ParseUint_formatBits
      by (change strconv.maxUint64 with 18446744073709551615; lia).
    cbn [Z.eqb andb negb].
    change (to_uint64 (Z.shiftl 1 (strconv.intSize - 1))) with (2 ^ 63).
    destruct (Z.gtb_spec (- v) (2 ^ 63)); [lia|].
    f_equal. unfold to_int64.
    destruct (Z.eq_dec v (- 2 ^ 63)) as [-> | Hne]; [reflexivity|].
    rewrite (Z.mod_small (- v + 2 ^ 63)) by lia.
    replace (- (- v + 2 ^ 63 - 2 ^ 63) + 2 ^ 63) with (v + 2 ^ 63) by lia.
    rewrite Z.mod_small by lia. lia.
  - assert (Hu : to_uint64 v = v) by (unfold to_uint64; apply Z.mod_small; lia).
    rewrite Hu.
    destruct (formatBits_head 19 v) as (d & rest & Hd & Heq).
    unfold strconv.ParseInt. rewrite Heq. cbv beta iota.
    destruct (digit_not_sign d Hd) as [-> ->]. cbv beta iota.
    rewrite <- Heq.
    rewrite ParseUint_formatBits
      by (change strconv.maxUint64 with 18446744073709551615; lia).
    cbn [Z.eqb andb negb].
    change (to_uint64 (Z.shiftl 1 (strconv.intSize - 1))) with (2 ^ 63).
    destruct (Z.geb_spec v (2 ^ 63)); [lia|].
    f_equal. apply to_int64_id. unfold int64. lia.
Qed.

(** ** Routing *)

Section Routing.

Context {S : Type} `{TimestampStore S}.

Lemma matchPath_leaf p (h : HandlerFunc S) path :
  http.matchPath (leaf p h) path = if String.eqb path "" then Some (p, h) else None.
Proof.
  unfold leaf. cbn [http.matchPath].
  destruct (String.eqb path ""); [reflexivity|].
  destruct (http.firstSegment path) as [seg rest].
  destruct (negb (String.eqb seg "/")); reflexivity.
Qed.

Lemma matchPath_any p (h : HandlerFunc S) path :
  http.matchPath (http.Node None [] (Some (leaf p h))) path
  = if String.eqb path "" then None else Some (p, h).
Proof.
  cbn [http.matchPath].
  destruct (String.eqb path ""); [reflexivity|].
  destruct (http.firstSegment path) as [seg rest].
  destruct (negb (String.eqb seg "/")); reflexivity.
Qed.

Lemma matchPath_timestamp p (h : HandlerFunc S) path :
  http.matchPath (http.Node None [ ("timestamp", leaf p h) ] None) path
  = if timestampPath path then Some (p, h) else None.
Proof.
  unfold timestampPath. cbn [http.matchPath].
  destruct (String.eqb path ""); [reflexivity|]. cbn [negb andb].
  destruct (http.firstSegment path) as [seg rest].
  destruct (String.eqb "timestamp" seg).
  - rewrite matchPath_leaf. cbn [andb].
    destruct (String.eqb rest ""); [reflexivity|].
    destruct (negb (String.eqb seg "/")); reflexivity.
  - cbn [andb String.eqb Ascii.eqb].
    destruct (negb (String.eqb seg "/")); reflexivity.
Qed.

Lemma timestampPath_nonempty path :
  timestampPath path = true -> String.eqb path "" = false.
Proof.
  unfold timestampPath. destruct (String.eqb path ""); [discriminate | reflexivity].
Qed.

(** The handler that the routing tree of the server gives for a method and
    a path. *)
Lemma route_NewTimestampServer method path :
  http.routeOf (http.matchMethodAndPath NewTimestampServer method path)
  = if String.eqb path "" then http.RouteError
    else if timestampPath path && (String.eqb "GET" method || String.eqb method "HEAD")
    then http.RouteHandler getTimestamp
    else if timestampPath path && String.eqb "POST" method
    then http.RouteHandler storeTimestamp
    else http.RouteHandler notFoundHandler.
Proof.
  unfold http.matchMethodAndPath, http.matchChild, NewTimestampServer.
  cbn [http.findChild].
  destruct (String.eqb_spec "" method) as [<- | Hempty];
    [| destruct (String.eqb_spec "GET" method) as [<- | Hget];
       [| destruct (String.eqb_spec "POST" method) as [<- | Hpost];
          [| destruct (String.eqb_spec method "HEAD") as [-> | Hhead] ] ] ];
    cbn [String.eqb Ascii.eqb Bool.eqb orb andb http.findChild];
    rewrite ?matchPath_timestamp, ?matchPath_any, ?andb_false_r, ?andb_true_r;
    destruct (timestampPath path) eqn:Hts;
    try rewrite (timestampPath_nonempty _ Hts);
    try reflexivity;
    destruct (String.eqb path ""); reflexivity.
Qed.

(** When the mux hands a request to a registered handler, it is the one
    that the routing tree gives for the request's method and path as they
    are: the mux redirects every path that cleaning changes. *)
Lemma findHandler_registered {H'} (tree : http.routingNode H') r h :
  http.findHandler tree r = http.RouteHandler h ->
  http.routeOf (http.matchMethodAndPath tree (http.Method r) (http.EscapedPath r))
  = http.RouteHandler h.
Proof.
  unfold http.findHandler.
  destruct (String.eqb (http.Method r) "CONNECT").
  - destruct (http.matchOrRedirect tree (http.Method r) (http.EscapedPath r) true)
      as [n [|]]; [discriminate|].
    unfold http.matchOrRedirect. rewrite andb_false_r. cbn [andb fst]. tauto.
  - destruct (http.matchOrRedirect tree (http.Method r)
                (http.cleanPath (http.EscapedPath r)) true) as [n [|]] eqn:Hmatch;
      [discriminate|].
    destruct (String.eqb_spec (http.cleanPath (http.EscapedPath r)) (http.EscapedPath r))
      as [Hclean | Hdirty]; [|discriminate].
    cbn [negb]. rewrite Hclean in Hmatch.
    unfold http.matchOrRedirect in Hmatch.
    repeat match type of Hmatch with
           | (if ?c then _ else _) = _ => destruct c
           end; inversion Hmatch; subst; tauto.
Qed.

Lemma findHandler_POST_timestamp r :
  http.Method r = "POST" -> http.EscapedPath r = "/timestamp" ->
  http.findHandler NewTimestampServer r = http.RouteHandler storeTimestamp.
Proof.
  intros Hm Hp. unfold http.findHandler. rewrite Hm, Hp. reflexivity.
Qed.

Lemma findHandler_GET_timestamp r :
  http.Method r = "GET" -> http.EscapedPath r = "/timestamp" ->
  http.findHandler NewTimestampServer r = http.RouteHandler getTimestamp.
Proof.
  intros Hm Hp. unfold http.findHandler. rewrite Hm, Hp. reflexivity.
Qed.

Lemma ServeHTTP_POST_timestamp t w r :
  http.Method r = "POST" -> http.EscapedPath r = "/timestamp" ->
  http.RequestURI r <> "*" ->
  ServeHTTP t w r = Some (storeTimestamp t w r).
Proof.
  intros Hm Hp Huri. unfold ServeHTTP.
  destruct (String.eqb_spec (http.RequestURI r) "*"); [contradiction|].
  now rewrite findHandler_POST_timestamp.
Qed.

Lemma ServeHTTP_GET_timestamp t w r :
  http.Method r = "GET" -> http.EscapedPath r = "/timestamp" ->
  http.RequestURI r <> "*" ->
  ServeHTTP t w r = Some (getTimestamp t w r).
Proof.
  intros Hm Hp Huri. unfold ServeHTTP.
  destruct (String.eqb_spec (http.RequestURI r) "*"); [contradiction|].
  now rewrite findHandler_GET_timestamp.
Qed.

(** Every response of the server is the response of one of the three
    handlers, chosen by the method and the path. *)
Lemma ServeHTTP_registered t w r t' w' :
  ServeHTTP t w r = Some (t', w') ->
  (t', w') =
    if isGetTimestamp r then getTimestamp t w r
    else if isPostTimestamp r then storeTimestamp t w r
    else notFoundHandler t w r.
Proof.
  unfold ServeHTTP, isGetTimestamp, isPostTimestamp.
  destruct (String.eqb (http.RequestURI r) "*"); [discriminate|].
  destruct (http.findHandler NewTimestampServer r) as [h | |] eqn:Hfind;
    try discriminate.
  intros [= <-]. apply findHandler_registered in Hfind.
  rewrite route_NewTimestampServer in Hfind.
  repeat match type of Hfind with
         | (if ?c then _ else _) = _ => destruct c
         end; congruence.
Qed.

Lemma ServeHTTP_RequestURI t w r :
  ServeHTTP t w r <> None -> http.RequestURI r <> "*".
Proof.
  unfold ServeHTTP. intros Hsome Huri. rewrite Huri in Hsome. now apply Hsome.
Qed.

(** *** The three handlers, from a fresh recorder *)

Lemma getTimestamp_response (t : S) r :
  getTimestamp t httptest.NewRecorder r
  = (t, httptest.Write (strconv.FormatInt (GetTimestamp t))
          (if GetTimestamp t =? 0
           then httptest.WriteHeader 404
                  (httptest.Header_Set "Content-Type" "text/plain" httptest.NewRecorder)
           else httptest.Header_Set "Content-Type" "text/plain" httptest.NewRecorder)).
Proof. reflexivity. Qed.

Lemma getTimestamp_recorded (t : S) r :
  let w := snd (getTimestamp t httptest.NewRecorder r) in
  fst (getTimestamp t httptest.NewRecorder r) = t
  /\ httptest.Code w = (if GetTimestamp t =? 0 then 404 else 200)
  /\ httptest.Body w = strconv.FormatInt (GetTimestamp t)
  /\ httptest.hasContentType w "text/plain".
Proof.
  rewrite getTimestamp_response. cbn [fst snd].
  destruct (GetTimestamp t =? 0); repeat split.
Qed.

Lemma notFoundHandler_recorded (t : S) r :
  let w := snd (notFoundHandler t httptest.NewRecorder r) in
  fst (notFoundHandler t httptest.NewRecorder r) = t
  /\ httptest.Code w = 404
  /\ httptest.Body w = "404 - Page not found"
  /\ httptest.hasContentType w "text/plain".
Proof. repeat split. Qed.

Lemma http_Error_recorded msg code :
  let w := http_Error httptest.NewRecorder msg code in
  httptest.Code w = code
  /\ httptest.Body w = msg +:+ newline
  /\ httptest.hasContentType w "text/plain; charset=utf-8".
Proof. repeat split. Qed.

(** The four outcomes of [storeTimestamp]. *)
Lemma storeTimestamp_cases (t : S) r :
  storeTimestamp t httptest.NewRecorder r =
    match http.Body r with
    | None => (t, httptest.NewRecorder)
    | Some b =>
        if io.fails b
        then (t, http_Error httptest.NewRecorder "Invalid request body" 400)
        else
          match strconv.ParseInt (io.content b) 0 with
          | (_, Some _) => (t, http_Error httptest.NewRecorder "Invalid request body" 400)
          | (v, None) =>
              (StoreTimestamp v t, httptest.WriteHeader 202 httptest.NewRecorder)
          end
    end.
Proof.
  unfold storeTimestamp, io.ReadAll.
  destruct (http.Body r) as [b|]; [|reflexivity].
  destruct (io.fails b); [reflexivity|].
  destruct (strconv.ParseInt (io.content b) 0) as [v [e|]]; reflexivity.
Qed.

End Routing.

(** ** Clean paths without escapes *)

Lemma backtrack_ge out dotdot w : (dotdot <= w)%nat -> (dotdot <= path.backtrack out dotdot w)%nat.
Proof.
  induction w as [|w IH]; intros Hle; cbn [path.backtrack]; [lia|].
  destruct (Nat.ltb_spec dotdot (S w)) as [Hlt | Hge]; cbn [andb]; [|exact Hle].
  destruct (negb (Ascii.eqb (nth (S w) out "/"%char) "/")); [|exact Hle].
  apply IH. lia.
Qed.

(** The loop of [Clean] keeps the leading slash of a rooted path. *)
Lemma cleanLoop_rooted fuel :
  forall p out,
    exists out', path.cleanLoop fuel true p ("/"%char :: out) 1 = "/"%char :: out'.
Proof.
  induction fuel as [|fuel IH]; intros p out; [eexists; reflexivity|].
  destruct p as [|c p1]; [eexists; reflexivity|].
  cbn [path.cleanLoop].
  destruct (Ascii.eqb c "/"); [apply IH|].
  destruct (Ascii.eqb c "." && path.at_end_or_slash p1); [apply IH|].
  destruct p1 as [|c1 p2].
  - destruct (true && negb (length ("/"%char :: out) =? 1)%nat
              || negb true && negb (length ("/"%char :: out) =? 0)%nat); apply IH.
  - destruct (Ascii.eqb c "." && Ascii.eqb c1 "." && path.at_end_or_slash p2).
    + destruct (Nat.ltb_spec 1 (length ("/"%char :: out))) as [Hlt | Hge].
      * pose proof (backtrack_ge ("/"%char :: out) 1
                      (length ("/"%char :: out) - 1) ltac:(lia)) as Hw.
        destruct (path.backtrack ("/"%char :: out) 1 (length ("/"%char :: out) - 1))
          as [|w]; [lia|].
        cbn [firstn]. apply IH.
      * cbn [negb]. apply IH.
    + destruct (path.element (c :: c1 :: p2)) as [e rest].
      destruct (true && negb (length ("/"%char :: out) =? 1)%nat
                || negb true && negb (length ("/"%char :: out) =? 0)%nat); apply IH.
Qed.

Lemma Clean_rooted p : exists q, path.Clean (String "/" p) = String "/" q.
Proof.
  unfold path.Clean. cbn [list_ascii_of_string Ascii.eqb Bool.eqb].
  destruct (cleanLoop_rooted (length ("/"%char :: list_ascii_of_string p))
              (list_ascii_of_string p) []) as [out' ->].
  eexists. reflexivity.
Qed.

(** A cleaned path starts with a slash. *)
Lemma cleanPath_rooted p : exists q, http.cleanPath p = String "/" q.
Proof.
  unfold http.cleanPath. destruct p as [|c p]; [eexists; reflexivity|].
  set (p' := if negb (Ascii.eqb c "/") then String "/" (String c p) else String c p).
  assert (Hp' : exists q, p' = String "/" q).
  { subst p'. destruct (Ascii.eqb_spec c "/") as [-> | Hne]; eexists; reflexivity. }
  destruct Hp' as [q Hq]. rewrite Hq.
  destruct (Clean_rooted q) as [np ->].
  repeat match goal with
         | |- context [if ?c then _ else _] => destruct c
         end; eexists; reflexivity.
Qed.

Lemma PathUnescape_plain s : plain s = true -> url.PathUnescape s = Some s.
Proof.
  induction s as [|c s IH]; [reflexivity|]. cbn [plain url.PathUnescape].
  destruct (Ascii.eqb c "%"); [discriminate|]. cbn [negb andb].
  intros Hs. now rewrite IH.
Qed.

Lemma cutSlash_all s seg :
  http.cutSlash s = (seg, "") -> s = seg.
Proof.
  revert seg. induction s as [|c s IH]; intros seg; cbn [http.cutSlash].
  - intros Heq. now inversion Heq.
  - destruct (Ascii.eqb c "/"); [discriminate|].
    destruct (http.cutSlash s) as [a b]. intros Heq. inversion Heq; subst.
    now rewrite (IH a eq_refl).
Qed.

(** Without escapes, the paths of the patterns for [/timestamp] are that
    path alone. *)
Lemma timestampPath_plain p :
  plain (String "/" p) = true ->
  timestampPath (String "/" p) = true <-> String "/" p = "/timestamp".
Proof.
  intros Hplain. split; [|intros ->; reflexivity].
  destruct p as [|c p]; [discriminate|].
  unfold timestampPath, http.firstSegment.
  destruct (String.eqb_spec (String "/" (String c p)) "") as [Habs | _];
    [discriminate Habs|].
  destruct (String.eqb_spec (String "/" (String c p)) "/") as [Habs | _];
    [discriminate Habs|].
  cbn [negb andb].
  destruct (http.cutSlash (String c p)) as [seg rest] eqn:Hcut.
  destruct (String.eqb_spec "timestamp" (http.pathUnescape seg)) as [Hseg | _];
    cbn [andb]; [|discriminate].
  destruct (String.eqb_spec rest "") as [-> | _]; [|discriminate].
  intros _. apply cutSlash_all in Hcut. subst seg.
  unfold http.pathUnescape in Hseg.
  rewrite PathUnescape_plain in Hseg by exact Hplain.
  now rewrite Hseg.
Qed.

Section Served.

Context {S : Type} `{TimestampStore S}.

(** The path of a request that a handler serves is clean, for every
    method but [CONNECT]. *)
Lemma ServeHTTP_clean (t t' : S) w w' r :
  ServeHTTP t w r = Some (t', w') ->
  http.Method r <> "CONNECT" ->
  http.cleanPath (http.EscapedPath r) = http.EscapedPath r.
Proof.
  unfold ServeHTTP, http.findHandler. intros Hserved Hmethod.
  destruct (String.eqb (http.RequestURI r) "*"); [discriminate|].
  destruct (String.eqb_spec (http.Method r) "CONNECT") as [Hconnect | _];
    [contradiction|].
  destruct (http.matchOrRedirect NewTimestampServer (http.Method r)
              (http.cleanPath (http.EscapedPath r)) true) as [found [|]];
    [discriminate|].
  destruct (String.eqb_spec (http.cleanPath (http.EscapedPath r)) (http.EscapedPath r))
    as [Hclean | Hdirty]; [assumption | discriminate].
Qed.

(** In terms of the method and the path alone: a served request without
    escapes in its path goes to [getTimestamp] or [storeTimestamp] exactly
    when its path is [/timestamp] and its method is [GET] or [HEAD], or
    [POST]. *)
Lemma served_timestamp_plain (t t' : S) w w' r :
  ServeHTTP t w r = Some (t', w') ->
  http.Method r <> "CONNECT" ->
  plain (http.EscapedPath r) = true ->
  (isGetTimestamp r = true <->
   http.EscapedPath r = "/timestamp"
   /\ (http.Method r = "GET" \/ http.Method r = "HEAD"))
  /\ (isPostTimestamp r = true <->
      http.EscapedPath r = "/timestamp" /\ http.Method r = "POST").
Proof.
  intros Hserved Hmethod Hplain.
  pose proof (ServeHTTP_clean _ _ _ _ _ Hserved Hmethod) as Hclean.
  destruct (cleanPath_rooted (http.EscapedPath r)) as [q Hq].
  rewrite Hclean in Hq. rewrite Hq in Hplain.
  pose proof (timestampPath_plain q Hplain) as Hts. rewrite <- Hq in Hts.
  unfold isGetTimestamp, isPostTimestamp.
  rewrite !andb_true_iff, orb_true_iff, !String.eqb_eq, Hts.
  intuition congruence.
Qed.

End Served.

(** ** The scenarios of the tests *)

Example Clean_dot_dot : path.Clean "/a/b/../../../timestamp/./x//y/" = "/timestamp/x/y".
Proof. vm_compute. reflexivity. Qed.

Example cleanPath_keeps_slash : http.cleanPath "/timestamp//" = "/timestamp/".
Proof. vm_compute. reflexivity. Qed.

Example store_and_retrieve :
  option_map (fun w => (httptest.Code w, httptest.Body w))
    (post_then_get NewInMemoryTimestampStore 1700000000)
  = Some (200, "1700000000").
Proof. vm_compute. reflexivity. Qed.

Example missing_route :
  response (ServeHTTP NewInMemoryTimestampStore httptest.NewRecorder
              (NewRequest "GET" "/test" None))
  = Some (404, "404 - Page not found").
Proof. vm_compute. reflexivity. Qed.

Example unclean_path_redirected :
  ServeHTTP NewInMemoryTimestampStore httptest.NewRecorder
    (NewRequest "GET" "//timestamp" None) = None.
Proof. vm_compute. reflexivity. Qed.

Example escaped_path_served :
  response (ServeHTTP (StoreTimestamp 5 NewInMemoryTimestampStore) httptest.NewRecorder
              (NewRequest "GET" "/time%73tamp" None))
  = Some (200, "5").
Proof. vm_compute. reflexivity. Qed.

(** ** The claims about the service *)

(** A body that [strconv.ParseInt] rejects: the empty body, text that is
    not a number, and numbers outside of [int64]. *)
Lemma ParseInt_rejects :
  snd (strconv.ParseInt "" 0) = Some strconv.ErrSyntax
  /\ snd (strconv.ParseInt "abc" 0) = Some strconv.ErrSyntax
  /\ snd (strconv.ParseInt "9223372036854775808" 0) = Some strconv.ErrRange
  /\ snd (strconv.ParseInt "-9223372036854775809" 0) = Some strconv.ErrRange.
Proof. repeat split; vm_compute; reflexivity. Qed.

(** C1, as the specification states it, fails: after a [POST] of
    [-62135596800], the Unix seconds of the zero [time.Time], the [GET]
    answers [0]. *)
Lemma roundtrip_zero_time_counterexample :
  int64 (-62135596800)
  /\ option_map httptest.Body (post_then_get NewInMemoryTimestampStore (-62135596800))
     = Some "0"
  /\ option_map httptest.Body (post_then_get NewInMemoryTimestampStore (-62135596800))
     <> Some (strconv.FormatInt (-62135596800)).
Proof.
  split; [unfold int64; lia|].
  split; [vm_compute; reflexivity | vm_compute; discriminate].
Qed.

(** C1 (amended): for every [int64] value [v] other than [-62135596800],
    a [POST /timestamp] whose body is the decimal text of [v] is accepted
    with status 202, and the [GET /timestamp] that follows answers with the
    decimal text of exactly [v] as its body (with status 200, or 404 when
    [v] is 0). *)
Theorem post_then_get_roundtrip (t : InMemoryTimestampStore) (v : Z) :
  int64 v -> v <> -62135596800 ->
  response (ServeHTTP t httptest.NewRecorder
              (NewRequest "POST" "/timestamp" (Some (strconv.FormatInt v))))
  = Some (202, "")
  /\ option_map httptest.Body (post_then_get t v) = Some (strconv.FormatInt v)
  /\ option_map httptest.Code (post_then_get t v) = Some (if v =? 0 then 404 else 200).
Proof.
  intros Hv Hne. unfold post_then_get.
  rewrite ServeHTTP_POST_timestamp by (reflexivity || discriminate).
  rewrite storeTimestamp_cases. cbn [NewRequest http.Body option_map io.fails io.content].
  rewrite ParseInt_FormatInt by assumption.
  split; [reflexivity|].
  rewrite ServeHTTP_GET_timestamp by (reflexivity || discriminate).
  rewrite getTimestamp_response. cbn [option_map].
  rewrite InMemory_get_store by assumption.
  change (- time.unixToInternal) with (-62135596800).
  destruct (Z.eqb_spec v (-62135596800)); [contradiction|].
  destruct (v =? 0); split; reflexivity.
Qed.

Lemma post_then_get_roundtrip_witness :
  option_map httptest.Body (post_then_get NewInMemoryTimestampStore 1700000000)
  = Some "1700000000".
Proof.
  apply (post_then_get_roundtrip NewInMemoryTimestampStore 1700000000);
    [unfold int64; lia | lia].
Defined.

(** C2, as the specification states it, fails: the 202 response to an
    accepted [POST /timestamp] carries no [Content-Type] at all. *)
Lemma content_type_counterexample :
  match ServeHTTP NewInMemoryTimestampStore httptest.NewRecorder
          (NewRequest "POST" "/timestamp" (Some "1700000000")) with
  | Some (_, w) =>
      httptest.Code w = 202
      /\ httptest.noContentType w
      /\ ~ httptest.hasContentType w "text/plain"
  | None => False
  end.
Proof.
  vm_compute. repeat split. intros [_ Hct]. discriminate Hct.
Qed.

(** C2 (amended): every response of the [GET /timestamp] handler and of the
    not-found handler carries the [Content-Type] [text/plain]; a response of
    the [POST /timestamp] handler carries [text/plain; charset=utf-8] when
    its status is 400, and otherwise (status 202, or 200 for a [nil] body)
    has an empty body and carries no [Content-Type]. *)
Theorem response_content_type {S} `{TimestampStore S}
    (t t' : S) (r : http.Request) (w : httptest.ResponseRecorder) :
  ServeHTTP t httptest.NewRecorder r = Some (t', w) ->
  if isGetTimestamp r then httptest.hasContentType w "text/plain"
  else if isPostTimestamp r
  then (httptest.Code w = 400 /\ httptest.hasContentType w "text/plain; charset=utf-8")
       \/ (httptest.Code w <> 400 /\ httptest.Body w = "" /\ httptest.noContentType w)
  else httptest.hasContentType w "text/plain".
Proof.
  intros Hserved. apply ServeHTTP_registered in Hserved.
  destruct (isGetTimestamp r).
  - pose proof (getTimestamp_recorded t r) as (_ & _ & _ & Hct).
    rewrite <- Hserved in Hct. exact Hct.
  - destruct (isPostTimestamp r).
    + rewrite storeTimestamp_cases in Hserved.
      destruct (http.Body r) as [b|].
      * destruct (io.fails b).
        { injection Hserved as _ ->. left. repeat split. }
        destruct (strconv.ParseInt (io.content b) 0) as [v [e|]];
          injection Hserved as _ ->.
        { left. repeat split. }
        { right. repeat split. discriminate. }
      * injection Hserved as _ ->. right. repeat split. discriminate.
    + pose proof (notFoundHandler_recorded t r) as (_ & _ & _ & Hct).
      rewrite <- Hserved in Hct. exact Hct.
Qed.

Lemma response_content_type_witness :
  httptest.hasContentType
    (snd (getTimestamp NewInMemoryTimestampStore httptest.NewRecorder
            (NewRequest "GET" "/timestamp" None)))
    "text/plain".
Proof.
  exact (response_content_type
           NewInMemoryTimestampStore NewInMemoryTimestampStore
           (NewRequest "GET" "/timestamp" None)
           (snd (getTimestamp NewInMemoryTimestampStore httptest.NewRecorder
                   (NewRequest "GET" "/timestamp" None)))
           eq_refl).
Defined.

(** C3, as the specification states it, fails: [http.Error] writes its
    message with [fmt.Fprintln], so that the body of the 400 response to the
    body [abc] ends with a newline. *)
Lemma invalid_body_counterexample :
  snd (strconv.ParseInt "abc" 0) <> None
  /\ response (ServeHTTP NewInMemoryTimestampStore httptest.NewRecorder
                 (NewRequest "POST" "/timestamp" (Some "abc")))
     = Some (400, "Invalid request body" +:+ newline)
  /\ response (ServeHTTP NewInMemoryTimestampStore httptest.NewRecorder
                 (NewRequest "POST" "/timestamp" (Some "abc")))
     <> Some (400, "Invalid request body").
Proof.
  split; [vm_compute; discriminate|].
  split; [vm_compute; reflexivity | vm_compute; discriminate].
Qed.

(** C3 (amended): for every [POST /timestamp] request whose body is present
    and does not parse as a base-10 signed integer of 64 bits, the handler
    leaves the store as it is and responds with status 400 and the body
    [Invalid request body] followed by one newline. *)
Theorem invalid_body_400 {S} `{TimestampStore S}
    (t : S) (r : http.Request) (b : io.ReadCloser) :
  http.Method r = "POST" -> http.EscapedPath r = "/timestamp" ->
  http.RequestURI r <> "*" ->
  http.Body r = Some b ->
  snd (strconv.ParseInt (io.content b) 0) <> None ->
  exists w,
    ServeHTTP t httptest.NewRecorder r = Some (t, w)
    /\ httptest.Code w = 400
    /\ httptest.Body w = "Invalid request body" +:+ newline.
Proof.
  intros Hm Hp Huri Hbody Herr.
  rewrite ServeHTTP_POST_timestamp by assumption.
  rewrite storeTimestamp_cases, Hbody.
  destruct (io.fails b).
  - eexists. repeat split.
  - destruct (strconv.ParseInt (io.content b) 0) as [v [e|]].
    + eexists. repeat split.
    + now contradiction Herr.
Qed.

Lemma invalid_body_400_witness :
  exists w,
    ServeHTTP NewInMemoryTimestampStore httptest.NewRecorder
      (NewRequest "POST" "/timestamp" (Some "")) = Some (NewInMemoryTimestampStore, w)
    /\ httptest.Code w = 400
    /\ httptest.Body w = "Invalid request body" +:+ newline.
Proof.
  apply (invalid_body_400 NewInMemoryTimestampStore
           (NewRequest "POST" "/timestamp" (Some ""))
           {| io.content := ""; io.fails := false |});
    try reflexivity; discriminate.
Defined.

(** C4: a [POST /timestamp] request that is answered with status 400 leaves
    the store as it was: [StoreTimestamp] is not called. *)
Theorem bad_request_keeps_store {S} `{TimestampStore S}
    (t t' : S) (r : http.Request) (w : httptest.ResponseRecorder) :
  http.Method r = "POST" -> http.EscapedPath r = "/timestamp" ->
  ServeHTTP t httptest.NewRecorder r = Some (t', w) ->
  httptest.Code w = 400 ->
  t' = t.
Proof.
  intros Hm Hp Hserved Hcode.
  assert (Huri : http.RequestURI r <> "*")
    by (apply (ServeHTTP_RequestURI t httptest.NewRecorder); congruence).
  rewrite ServeHTTP_POST_timestamp, storeTimestamp_cases in Hserved by assumption.
  destruct (http.Body r) as [b|]; [|congruence].
  destruct (io.fails b); [congruence|].
  destruct (strconv.ParseInt (io.content b) 0) as [v [e|]]; [congruence|].
  injection Hserved as _ <-. discriminate Hcode.
Qed.

(** The same on the store of the tests: no call of [StoreTimestamp] is
    recorded. *)
Lemma bad_request_keeps_store_witness :
  storeCalls
    (fst (storeTimestamp {| stub_timestamp := time.Unix 5 0; storeCalls := [5] |}
            httptest.NewRecorder (NewRequest "POST" "/timestamp" (Some "abc"))))
  = [5].
Proof.
  rewrite (bad_request_keeps_store
             {| stub_timestamp := time.Unix 5 0; storeCalls := [5] |}
             (fst (storeTimestamp {| stub_timestamp := time.Unix 5 0; storeCalls := [5] |}
                     httptest.NewRecorder (NewRequest "POST" "/timestamp" (Some "abc"))))
             (NewRequest "POST" "/timestamp" (Some "abc"))
             (snd (storeTimestamp {| stub_timestamp := time.Unix 5 0; storeCalls := [5] |}
                     httptest.NewRecorder (NewRequest "POST" "/timestamp" (Some "abc"))))
             eq_refl eq_refl eq_refl eq_refl).
  reflexivity.
Defined.

(** C5: a [POST /timestamp] request with a [nil] body does nothing: the
    store and the recorder are as before, and the status is the default
    200; with a body that is present and empty the status is 400. *)
Theorem nil_body_200 {S} `{TimestampStore S} (t : S) (r : http.Request) :
  http.Method r = "POST" -> http.EscapedPath r = "/timestamp" ->
  http.RequestURI r <> "*" ->
  (http.Body r = None ->
   ServeHTTP t httptest.NewRecorder r = Some (t, httptest.NewRecorder)
   /\ response (ServeHTTP t httptest.NewRecorder r) = Some (200, ""))
  /\ (http.Body r = Some {| io.content := ""; io.fails := false |} ->
      exists w, ServeHTTP t httptest.NewRecorder r = Some (t, w)
                /\ httptest.Code w = 400).
Proof.
  intros Hm Hp Huri.
  rewrite ServeHTTP_POST_timestamp, storeTimestamp_cases by assumption.
  split; intros ->.
  - split; reflexivity.
  - eexists. split; reflexivity.
Qed.

Lemma nil_body_200_witness :
  response (ServeHTTP NewInMemoryTimestampStore httptest.NewRecorder
              (NewRequest "POST" "/timestamp" None)) = Some (200, "").
Proof.
  apply (nil_body_200 NewInMemoryTimestampStore (NewRequest "POST" "/timestamp" None));
    try reflexivity; discriminate.
Defined.

(** C6: a [GET /timestamp] request made while the store reports 0 is
    answered with status 404 and the body [0]: the handler writes the
    status line first and the body after it. *)
Theorem unset_get_404 {S} `{TimestampStore S} (t : S) (r : http.Request) :
  http.Method r = "GET" -> http.EscapedPath r = "/timestamp" ->
  http.RequestURI r <> "*" ->
  GetTimestamp t = 0 ->
  ServeHTTP t httptest.NewRecorder r
  = Some (t, httptest.Write "0"
               (httptest.WriteHeader 404
                  (httptest.Header_Set "Content-Type" "text/plain" httptest.NewRecorder)))
  /\ response (ServeHTTP t httptest.NewRecorder r) = Some (404, "0").
Proof.
  intros Hm Hp Huri Hzero.
  rewrite ServeHTTP_GET_timestamp, getTimestamp_response, Hzero by assumption.
  split; reflexivity.
Qed.

Lemma unset_get_404_witness :
  response (ServeHTTP NewInMemoryTimestampStore httptest.NewRecorder
              (NewRequest "GET" "/timestamp" None)) = Some (404, "0").
Proof.
  apply (unset_get_404 NewInMemoryTimestampStore (NewRequest "GET" "/timestamp" None));
    try reflexivity; discriminate.
Defined.

(** C7: a [POST /timestamp] request whose body is read in full and parses
    as the base-10 signed integer [v] calls [StoreTimestamp v] once and is
    answered with status 202 and an empty body. *)
Theorem valid_body_202 {S} `{TimestampStore S}
    (t : S) (r : http.Request) (b : io.ReadCloser) (v : Z) :
  http.Method r = "POST" -> http.EscapedPath r = "/timestamp" ->
  http.RequestURI r <> "*" ->
  http.Body r = Some b -> io.fails b = false ->
  strconv.ParseInt (io.content b) 0 = (v, None) ->
  exists w,
    ServeHTTP t httptest.NewRecorder r = Some (StoreTimestamp v t, w)
    /\ httptest.Code w = 202
    /\ httptest.Body w = "".
Proof.
  intros Hm Hp Huri Hbody Hread Hparse.
  rewrite ServeHTTP_POST_timestamp, storeTimestamp_cases by assumption.
  rewrite Hbody, Hread, Hparse.
  eexists. repeat split.
Qed.

(** On the store of the tests, the call of [StoreTimestamp] is recorded. *)
Lemma valid_body_202_witness :
  exists w,
    ServeHTTP {| stub_timestamp := time.zero; storeCalls := [] |} httptest.NewRecorder
      (NewRequest "POST" "/timestamp" (Some "1700000000"))
    = Some ({| stub_timestamp := time.Unix 1700000000 0; storeCalls := [1700000000] |}, w)
    /\ httptest.Code w = 202
    /\ httptest.Body w = "".
Proof.
  exact (valid_body_202 {| stub_timestamp := time.zero; storeCalls := [] |}
           (NewRequest "POST" "/timestamp" (Some "1700000000"))
           {| io.content := "1700000000"; io.fails := false |} 1700000000
           eq_refl eq_refl ltac:(discriminate) eq_refl eq_refl eq_refl).
Defined.

(** C8, as the specification states it, fails: a [HEAD /timestamp] request
    is neither [GET /timestamp] nor [POST /timestamp], and the pattern
    ["GET /timestamp"] serves it. *)
Lemma head_timestamp_counterexample :
  "HEAD" <> "GET" /\ "HEAD" <> "POST"
  /\ response (ServeHTTP (StoreTimestamp 1700000000 NewInMemoryTimestampStore)
                 httptest.NewRecorder (NewRequest "HEAD" "/timestamp" None))
     = Some (200, "1700000000")
  /\ response (ServeHTTP (StoreTimestamp 1700000000 NewInMemoryTimestampStore)
                 httptest.NewRecorder (NewRequest "HEAD" "/timestamp" None))
     <> Some (404, "404 - Page not found").
Proof.
  repeat split; try discriminate; vm_compute; (reflexivity || discriminate).
Qed.

(** C8 (amended): when the mux gives a request to a handler, and the
    request is not one for the path [/timestamp] with the method [GET],
    [HEAD] or [POST], the not-found handler serves it: the store is as
    before, the status is 404, the body is exactly [404 - Page not found]
    and the [Content-Type] is [text/plain]. *)
Theorem other_requests_404 {S} `{TimestampStore S}
    (t t' : S) (r : http.Request) (w : httptest.ResponseRecorder) :
  ServeHTTP t httptest.NewRecorder r = Some (t', w) ->
  isGetTimestamp r = false -> isPostTimestamp r = false ->
  t' = t
  /\ httptest.Code w = 404
  /\ httptest.Body w = "404 - Page not found"
  /\ httptest.hasContentType w "text/plain".
Proof.
  intros Hserved Hget Hpost. apply ServeHTTP_registered in Hserved.
  rewrite Hget, Hpost in Hserved.
  pose proof (notFoundHandler_recorded t r) as Hnf.
  rewrite <- Hserved in Hnf. exact Hnf.
Qed.

Lemma other_requests_404_witness :
  httptest.Code
    (snd (notFoundHandler NewInMemoryTimestampStore httptest.NewRecorder
            (NewRequest "GET" "/nonexistent" None))) = 404
  /\ httptest.Body
       (snd (notFoundHandler NewInMemoryTimestampStore httptest.NewRecorder
               (NewRequest "GET" "/nonexistent" None))) = "404 - Page not found"
  /\ httptest.hasContentType
       (snd (notFoundHandler NewInMemoryTimestampStore httptest.NewRecorder
               (NewRequest "GET" "/nonexistent" None))) "text/plain".
Proof.
  exact (proj2 (other_requests_404
                  NewInMemoryTimestampStore NewInMemoryTimestampStore
                  (NewRequest "GET" "/nonexistent" None)
                  (snd (notFoundHandler NewInMemoryTimestampStore httptest.NewRecorder
                          (NewRequest "GET" "/nonexistent" None)))
                  eq_refl eq_refl eq_refl)).
Defined.

(** X13: with the in-memory store, the client prints the timestamp it was
    given, for every [int64] timestamp but [-62135596800]. *)
Lemma Run_InMemory (c : Client InMemoryTimestampStore string) (t : Z) :
  int64 t -> t <> -62135596800 ->
  out (Run c t) = out c +:+ strconv.FormatInt t +:+ newline.
Proof.
  intros Ht Hne. unfold Run. cbn [out].
  rewrite InMemory_get_store by assumption.
  change (- time.unixToInternal) with (-62135596800).
  destruct (Z.eqb_spec t (-62135596800)); [contradiction | reflexivity].
Qed.

(** C10: storing [-62135596800], the Unix seconds of the zero [time.Time],
    makes [GetTimestamp] return 0: the stored time satisfies [IsZero].  It
    is the only [int64] value that does so: every other one is read back
    as it was stored. *)
Theorem zero_time_reads_unset (i : InMemoryTimestampStore) :
  time.Time_IsZero (timestamp (StoreTimestamp (-62135596800) i)) = true
  /\ GetTimestamp (StoreTimestamp (-62135596800) i) = 0
  /\ GetTimestamp (StoreTimestamp (-62135596800) i) <> -62135596800
  /\ forall v, int64 v -> v <> -62135596800 ->
               time.Time_IsZero (timestamp (StoreTimestamp v i)) = false
               /\ GetTimestamp (StoreTimestamp v i) = v.
Proof.
  split; [reflexivity|]. split; [reflexivity|]. split; [discriminate|].
  intros v Hv Hne. split.
  - cbn [StoreTimestamp InMemoryTimestampStore_store].
    unfold InMemory_StoreTimestamp. cbn [timestamp].
    rewrite Time_IsZero_Unix by assumption.
    change (- time.unixToInternal) with (-62135596800).
    now apply Z.eqb_neq.
  - rewrite InMemory_get_store by assumption.
    change (- time.unixToInternal) with (-62135596800).
    destruct (Z.eqb_spec v (-62135596800)); [contradiction | reflexivity].
Qed.

Lemma zero_time_reads_unset_witness :
  GetTimestamp (StoreTimestamp 1700000000 NewInMemoryTimestampStore) = 1700000000.
Proof.
  apply (zero_time_reads_unset NewInMemoryTimestampStore);
    [unfold int64; lia | lia].
Defined.

(** * Further properties of the code *)

(** ** The texts that [strconv.ParseInt] accepts *)

Lemma isDigit_digitVal c :
  isDigit c = true ->
  strconv.digitVal c = Some (byte c - byte "0") /\ 0 <= byte c - byte "0" < 10.
Proof.
  unfold isDigit, strconv.digitVal. intros Hd. rewrite Hd.
  apply andb_true_iff in Hd as [Hlo Hhi].
  apply Z.leb_le in Hlo, Hhi.
  change (byte "0") with 48 in *. change (byte "9") with 57 in *.
  split; [reflexivity | lia].
Qed.

Lemma not_isDigit_digitVal c :
  isDigit c = false ->
  strconv.digitVal c = None
  \/ exists d, strconv.digitVal c = Some d /\ strconv.base <= d.
Proof.
  unfold isDigit, strconv.digitVal. intros Hd. rewrite Hd.
  destruct ((byte "a" <=? strconv.lower (byte c))
            && (strconv.lower (byte c) <=? byte "z")) eqn:Hletter; [|now left].
  right. eexists. split; [reflexivity|].
  apply andb_true_iff in Hletter as [Hlo _]. apply Z.leb_le in Hlo.
  unfold strconv.base. lia.
Qed.

Lemma digitsValue_ge s :
  allDigits s = true -> forall n, 0 <= n -> n <= digitsValue s n.
Proof.
  induction s as [|c s IH]; cbn [allDigits digitsValue]; intros Hall n Hn; [lia|].
  apply andb_true_iff in Hall as [Hc Hs].
  destruct (isDigit_digitVal c Hc) as [_ Hd].
  specialize (IH Hs (n * 10 + (byte c - byte "0")) ltac:(lia)). lia.
Qed.

(** The loop of [ParseUint]: it computes the value of a text of digits that
    does not exceed [maxVal], reports [ErrRange] for a larger one, and
    [ErrSyntax] or [ErrRange] for a text with another byte. *)
Lemma parseLoop_spec M s :
  M <= strconv.maxUint64 ->
  forall n, 0 <= n <= M ->
    if allDigits s
    then if digitsValue s n <=? M
         then strconv.parseLoop M s n = (digitsValue s n, None)
         else strconv.parseLoop M s n = (M, Some strconv.ErrRange)
    else strconv.parseLoop M s n = (0, Some strconv.ErrSyntax)
         \/ strconv.parseLoop M s n = (M, Some strconv.ErrRange).
Proof.
  intros HM. change strconv.maxUint64 with 18446744073709551615 in HM.
  induction s as [|c s IH]; intros n Hn; cbn [allDigits digitsValue strconv.parseLoop].
  - destruct (Z.leb_spec n M); [reflexivity | lia].
  - destruct (isDigit c) eqn:Hc; cbn [andb].
    + destruct (isDigit_digitVal c Hc) as [-> Hd].
      set (d := byte c - byte "0") in *.
      unfold strconv.base, to_uint64.
      change strconv.cutoff with 1844674407370955162.
      destruct (Z.geb_spec d 10); [lia|].
      assert (Hrange : allDigits s = true -> n * 10 + d > M ->
                       (digitsValue s (n * 10 + d) <=? M) = false).
      { intros Hs Hgt. apply Z.leb_gt.
        pose proof (digitsValue_ge s Hs (n * 10 + d) ltac:(lia)). lia. }
      destruct (Z.geb_spec n 1844674407370955162) as [Hbig | Hsmall].
      { destruct (allDigits s) eqn:Hs; [|now right].
        rewrite Hrange by (reflexivity || lia). reflexivity. }
      rewrite (Z.mod_small (n * 10)) by lia.
      destruct (Z_lt_le_dec (n * 10 + d) (2 ^ 64)) as [Hfit | Hover].
      * rewrite (Z.mod_small (n * 10 + d)) by lia.
        destruct (Z.ltb_spec (n * 10 + d) (n * 10)); [lia|]. cbn [orb].
        destruct (Z.gtb_spec (n * 10 + d) M) as [Hgt | Hle].
        { destruct (allDigits s) eqn:Hs; [|now right].
          rewrite Hrange by (reflexivity || lia). reflexivity. }
        apply IH. lia.
      * assert (Hwrap : (n * 10 + d) mod 2 ^ 64 = n * 10 + d - 2 ^ 64).
        { replace (n * 10 + d) with (n * 10 + d - 2 ^ 64 + 1 * 2 ^ 64) at 1 by lia.
          rewrite Z_mod_plus_full. apply Z.mod_small. lia. }
        rewrite Hwrap.
        destruct (Z.ltb_spec (n * 10 + d - 2 ^ 64) (n * 10)); [|lia]. cbn [orb].
        destruct (allDigits s) eqn:Hs; [|now right].
        rewrite Hrange by (reflexivity || lia). reflexivity.
    + left. destruct (not_isDigit_digitVal c Hc) as [-> | (d & -> & Hd)]; [reflexivity|].
      destruct (Z.geb_spec d strconv.base); [reflexivity | lia].
Qed.

Lemma ParseUint_spec s :
  strconv.ParseUint s 0
  = if String.eqb s "" then (0, Some strconv.ErrSyntax)
    else strconv.parseLoop strconv.maxUint64 s 0.
Proof. reflexivity. Qed.

Lemma digitsValue_nonneg s : allDigits s = true -> 0 <= digitsValue s 0.
Proof. intros Hs. apply (digitsValue_ge s Hs 0). lia. Qed.

Lemma ParseInt_signed (neg : bool) (ds : string) :
  let result :=
    let '(un, err) := strconv.ParseUint ds 0 in
    if match err with
       | Some strconv.ErrSyntax | Some strconv.ErrBitSize => true
       | _ => false
       end
    then (0, err)
    else
      let cutoff := to_uint64 (Z.shiftl 1 (strconv.intSize - 1)) in
      if negb neg && (un >=? cutoff)
      then (to_int64 (cutoff - 1), Some strconv.ErrRange)
      else if neg && (un >? cutoff)
      then (to_int64 (- to_int64 cutoff), Some strconv.ErrRange)
      else (if neg then to_int64 (- to_int64 un) else to_int64 un, None) in
  if negb (String.eqb ds "") && allDigits ds
  then let z := if neg then - digitsValue ds 0 else digitsValue ds 0 in
       if in_int64 z then result = (z, None)
       else snd result = Some strconv.ErrRange
  else snd result <> None.
Proof.
  cbv zeta. rewrite ParseUint_spec.
  change (to_uint64 (Z.shiftl 1 (strconv.intSize - 1))) with (2 ^ 63).
  destruct (String.eqb ds ""); cbn [negb andb]; [discriminate|].
  pose proof (parseLoop_spec strconv.maxUint64 ds (Z.le_refl _) 0) as Hloop.
  specialize (Hloop ltac:(change strconv.maxUint64 with 18446744073709551615; lia)).
  destruct (allDigits ds) eqn:Hall.
  - pose proof (digitsValue_nonneg ds Hall) as Hnonneg.
    change strconv.maxUint64 with 18446744073709551615 in *.
    destruct (Z.leb_spec (digitsValue ds 0) 18446744073709551615) as [Hfit | Hover];
      rewrite Hloop; cbv beta iota; unfold in_int64.
    + set (u := digitsValue ds 0) in *.
      destruct neg; cbn [negb andb].
      * destruct (Z.gtb_spec u (2 ^ 63)) as [Hgt | Hle].
        { destruct (Z.leb_spec (- 2 ^ 63) (- u)); [lia|]. reflexivity. }
        destruct (Z.leb_spec (- 2 ^ 63) (- u)); [|lia].
        destruct (Z.ltb_spec (- u) (2 ^ 63)); [|lia]. cbn [andb].
        f_equal. unfold to_int64.
        destruct (Z.eq_dec u (2 ^ 63)) as [-> | Hne]; [reflexivity|].
        rewrite (Z.mod_small (u + 2 ^ 63)) by lia.
        replace (- (u + 2 ^ 63 - 2 ^ 63) + 2 ^ 63) with (- u + 2 ^ 63) by lia.
        rewrite Z.mod_small by lia. lia.
      * destruct (Z.geb_spec u (2 ^ 63)) as [Hge | Hlt].
        { destruct (Z.ltb_spec u (2 ^ 63)); [lia|]. now rewrite andb_false_r. }
        destruct (Z.leb_spec (- 2 ^ 63) u); [|lia].
        destruct (Z.ltb_spec u (2 ^ 63)); [|lia]. cbn [andb].
        f_equal. apply to_int64_id. unfold int64. lia.
    + set (u := digitsValue ds 0) in *.
      destruct neg; cbn [negb andb].
      * destruct (Z.leb_spec (- 2 ^ 63) (- u)); [lia|]. reflexivity.
      * destruct (Z.ltb_spec u (2 ^ 63)); [lia|]. now rewrite andb_false_r.
  - destruct Hloop as [-> | ->]; cbv beta iota; [discriminate|].
    destruct neg; discriminate.
Qed.

Lemma ParseInt_spec s :
  match decimalInt s with
  | Some z =>
      if in_int64 z then strconv.ParseInt s 0 = (z, None)
      else snd (strconv.ParseInt s 0) = Some strconv.ErrRange
  | None => snd (strconv.ParseInt s 0) <> None
  end.
Proof.
  destruct s as [|c0 rest]; [discriminate|].
  unfold decimalInt, strconv.ParseInt.
  destruct (Ascii.eqb_spec c0 "-") as [-> | Hminus].
  - change (Ascii.eqb "-" "+") with false. cbv beta iota.
    pose proof (ParseInt_signed true rest) as Hsigned. cbv zeta in Hsigned.
    destruct (negb (String.eqb rest "") && allDigits rest); exact Hsigned.
  - destruct (Ascii.eqb c0 "+"); cbv beta iota.
    + pose proof (ParseInt_signed false rest) as Hsigned. cbv zeta in Hsigned.
      destruct (negb (String.eqb rest "") && allDigits rest); exact Hsigned.
    + pose proof (ParseInt_signed false (String c0 rest)) as Hsigned.
      cbv zeta in Hsigned.
      destruct (negb (String.eqb (String c0 rest) "") && allDigits (String c0 rest));
        exact Hsigned.
Qed.

Lemma in_int64_spec z : in_int64 z = true <-> int64 z.
Proof.
  unfold in_int64, int64. rewrite andb_true_iff, Z.leb_le, Z.ltb_lt. tauto.
Qed.

(** [ParseInt] accepts exactly the decimal texts of the [int64] values. *)
Lemma ParseInt_accepts s v :
  strconv.ParseInt s 0 = (v, None) <-> decimalInt s = Some v /\ int64 v.
Proof.
  pose proof (ParseInt_spec s) as Hspec. rewrite <- in_int64_spec.
  destruct (decimalInt s) as [z|].
  - destruct (in_int64 z) eqn:Hz.
    + rewrite Hspec. split.
      * intros [= <-]. now split.
      * intros [[= <-] _]. reflexivity.
    + split.
      * intros Heq. rewrite Heq in Hspec. discriminate.
      * intros [[= <-] Hv]. congruence.
  - split.
    + intros Heq. rewrite Heq in Hspec. now contradiction Hspec.
    + intros [[=] _].
Qed.

(** ** The handler of a request does not depend on the store *)

Lemma matchPath_leaf_any {H} p (h : H) path :
  http.matchPath (http.Node (Some (p, h)) [] None) path
  = if String.eqb path "" then Some (p, h) else None.
Proof.
  cbn [http.matchPath].
  destruct (String.eqb path ""); [reflexivity|].
  destruct (http.firstSegment path) as [seg rest].
  destruct (negb (String.eqb seg "/")); reflexivity.
Qed.

Lemma matchPath_multi_any {H} p (h : H) path :
  http.matchPath (http.Node None [] (Some (http.Node (Some (p, h)) [] None))) path
  = if String.eqb path "" then None else Some (p, h).
Proof.
  cbn [http.matchPath].
  destruct (String.eqb path ""); [reflexivity|].
  destruct (http.firstSegment path) as [seg rest].
  destruct (negb (String.eqb seg "/")); reflexivity.
Qed.

Lemma matchPath_timestamp_any {H} p (h : H) path :
  http.matchPath
    (http.Node None [ ("timestamp", http.Node (Some (p, h)) [] None) ] None) path
  = if timestampPath path then Some (p, h) else None.
Proof.
  unfold timestampPath. cbn [http.matchPath].
  destruct (String.eqb path ""); [reflexivity|]. cbn [negb andb].
  destruct (http.firstSegment path) as [seg rest].
  destruct (String.eqb "timestamp" seg).
  - cbn [andb].
    destruct (String.eqb rest ""); [reflexivity|].
    destruct (http.firstSegment rest) as [seg' rest'].
    destruct (negb (String.eqb seg' "/")), (negb (String.eqb seg "/")); reflexivity.
  - cbn [andb String.eqb Ascii.eqb].
    destruct (negb (String.eqb seg "/")); reflexivity.
Qed.

Lemma matchMethodAndPath_routes {H} (root get post : H) method path :
  http.matchMethodAndPath (routes root get post) method path
  = if String.eqb path "" then None
    else if timestampPath path && (String.eqb "GET" method || String.eqb method "HEAD")
    then Some (pattern_get, get)
    else if timestampPath path && String.eqb "POST" method
    then Some (pattern_post, post)
    else Some (pattern_root, root).
Proof.
  unfold http.matchMethodAndPath, http.matchChild, routes.
  cbn [http.findChild].
  destruct (String.eqb_spec "" method) as [<- | Hempty];
    [| destruct (String.eqb_spec "GET" method) as [<- | Hget];
       [| destruct (String.eqb_spec "POST" method) as [<- | Hpost];
          [| destruct (String.eqb_spec method "HEAD") as [-> | Hhead] ] ] ];
    cbn [String.eqb Ascii.eqb Bool.eqb orb andb http.findChild];
    rewrite ?matchPath_timestamp_any, ?matchPath_multi_any, ?andb_false_r, ?andb_true_r;
    destruct (timestampPath path) eqn:Hts;
    try rewrite (timestampPath_nonempty _ Hts);
    try reflexivity;
    destruct (String.eqb path ""); reflexivity.
Qed.

Lemma matchMethodAndPath_routes_map {H H'} (f : H -> H') (root get post : H) method path :
  http.matchMethodAndPath (routes (f root) (f get) (f post)) method path
  = option_map (fun '(p, h) => (p, f h))
      (http.matchMethodAndPath (routes root get post) method path).
Proof.
  rewrite !matchMethodAndPath_routes.
  repeat match goal with
         | |- context [if ?c then _ else _] => destruct c
         end; reflexivity.
Qed.

Lemma exactMatch_map {H H'} (f : H -> H') (n : option (http.pattern * H)) path :
  http.exactMatch (option_map (fun '(p, h) => (p, f h)) n) path = http.exactMatch n path.
Proof. destruct n as [[p h]|]; reflexivity. Qed.

Lemma matchOrRedirect_routes_map {H H'} (f : H -> H') (root get post : H)
    method path withURL :
  http.matchOrRedirect (routes (f root) (f get) (f post)) method path withURL
  = (option_map (fun '(p, h) => (p, f h))
       (fst (http.matchOrRedirect (routes root get post) method path withURL)),
     snd (http.matchOrRedirect (routes root get post) method path withURL)).
Proof.
  unfold http.matchOrRedirect.
  rewrite !matchMethodAndPath_routes_map, !exactMatch_map.
  repeat match goal with
         | |- context [if ?c then _ else _] => destruct c
         end; reflexivity.
Qed.

Lemma findHandler_routes_map {H H'} (f : H -> H') (root get post : H) r :
  http.findHandler (routes (f root) (f get) (f post)) r
  = route_map f (http.findHandler (routes root get post) r).
Proof.
  unfold http.findHandler.
  rewrite !matchOrRedirect_routes_map.
  destruct (String.eqb (http.Method r) "CONNECT").
  - destruct (http.matchOrRedirect (routes root get post) (http.Method r)
                (http.EscapedPath r) true) as [n [|]]; [reflexivity|].
    cbn [fst snd].
    destruct (http.matchOrRedirect (routes root get post) (http.Method r)
                (http.EscapedPath r) false) as [[[p h]|] u]; reflexivity.
  - destruct (http.matchOrRedirect (routes root get post) (http.Method r)
                (http.cleanPath (http.EscapedPath r)) true) as [[[p h]|] [|]];
      cbn [fst snd option_map]; try reflexivity;
      destruct (negb (String.eqb (http.cleanPath (http.EscapedPath r))
                        (http.EscapedPath r))); reflexivity.
Qed.

Section Target.

Context {S : Type} `{TimestampStore S}.

Lemma NewTimestampServer_routes :
  NewTimestampServer (S := S)
  = routes (handlerOf NotFoundHandler) (handlerOf GetTimestampHandler)
      (handlerOf StoreTimestampHandler).
Proof. reflexivity. Qed.

(** The server gives a request to the handler [target] names, with the
    store it holds. *)
Lemma ServeHTTP_target (t : S) w r :
  ServeHTTP t w r = option_map (fun k => handlerOf k t w r) (target r).
Proof.
  unfold ServeHTTP, target.
  destruct (String.eqb (http.RequestURI r) "*"); [reflexivity|].
  rewrite NewTimestampServer_routes, findHandler_routes_map.
  destruct (http.findHandler
              (routes NotFoundHandler GetTimestampHandler StoreTimestampHandler) r);
    reflexivity.
Qed.

End Target.

(** ** What the handlers do to the store *)

(** X1: a request changes the store only when it is answered with status
    202, and then it is a request for [POST /timestamp] whose body is the
    decimal text of an [int64] value [v]: the store after it is
    [StoreTimestamp v] of the store before. *)
Theorem store_written_only_by_accepted_post {S} `{TimestampStore S}
    (t t' : S) (r : http.Request) (w : httptest.ResponseRecorder) :
  ServeHTTP t httptest.NewRecorder r = Some (t', w) ->
  (httptest.Code w <> 202 -> t' = t)
  /\ (httptest.Code w = 202 ->
      target r = Some StoreTimestampHandler
      /\ exists b v,
           http.Body r = Some b /\ io.fails b = false
           /\ decimalInt (io.content b) = Some v /\ int64 v
           /\ t' = StoreTimestamp v t).
Proof.
  rewrite ServeHTTP_target.
  destruct (target r) as [[| |]|]; cbn [option_map handlerOf]; [| | |discriminate].
  - intros [= <- <-]. split; [reflexivity | discriminate].
  - rewrite getTimestamp_response. intros [= <- <-]. split; [reflexivity|].
    destruct (GetTimestamp t =? 0); discriminate.
  - rewrite storeTimestamp_cases.
    destruct (http.Body r) as [b|].
    + destruct (io.fails b) eqn:Hfails.
      { intros [= <- <-]. split; [reflexivity | discriminate]. }
      destruct (strconv.ParseInt (io.content b) 0) as [v [e|]] eqn:Hparse;
        intros [= <- <-].
      { split; [reflexivity | discriminate]. }
      split; [intros Hcode; now contradiction Hcode|].
      intros _. split; [reflexivity|].
      apply ParseInt_accepts in Hparse as [Hdec Hv].
      exists b, v. split; [reflexivity|]. split; [assumption|].
      split; [assumption|]. split; [assumption | reflexivity].
    + intros [= <- <-]. split; [reflexivity | discriminate].
Qed.

Lemma store_written_only_by_accepted_post_witness :
  fst (getTimestamp {| stub_timestamp := time.Unix 5 0; storeCalls := [5] |}
         httptest.NewRecorder newGetTimestampRequest)
  = {| stub_timestamp := time.Unix 5 0; storeCalls := [5] |}.
Proof.
  assert (Hcode : httptest.Code
                    (snd (getTimestamp
                            {| stub_timestamp := time.Unix 5 0; storeCalls := [5] |}
                            httptest.NewRecorder newGetTimestampRequest)) <> 202)
    by (vm_compute; discriminate).
  exact (proj1 (store_written_only_by_accepted_post
                  {| stub_timestamp := time.Unix 5 0; storeCalls := [5] |}
                  (fst (getTimestamp
                          {| stub_timestamp := time.Unix 5 0; storeCalls := [5] |}
                          httptest.NewRecorder newGetTimestampRequest))
                  newGetTimestampRequest
                  (snd (getTimestamp
                          {| stub_timestamp := time.Unix 5 0; storeCalls := [5] |}
                          httptest.NewRecorder newGetTimestampRequest))
                  eq_refl)
           Hcode).
Defined.

(** X2: a [POST /timestamp] request whose body is read in full is accepted
    exactly when the body is a decimal text (an optional sign, then one or
    more digits) of an [int64] value: then that value is stored and the
    status is 202; for every other body the store is kept and the status is
    400. *)
Theorem post_accepts_decimal_int64 {S} `{TimestampStore S}
    (t : S) (r : http.Request) (b : io.ReadCloser) :
  http.Method r = "POST" -> http.EscapedPath r = "/timestamp" ->
  http.RequestURI r <> "*" ->
  http.Body r = Some b -> io.fails b = false ->
  exists w,
    ServeHTTP t httptest.NewRecorder r
    = Some (match decimalInt (io.content b) with
            | Some v => if in_int64 v then StoreTimestamp v t else t
            | None => t
            end, w)
    /\ httptest.Code w
       = match decimalInt (io.content b) with
         | Some v => if in_int64 v then 202 else 400
         | None => 400
         end.
Proof.
  intros Hm Hp Huri Hbody Hread.
  rewrite ServeHTTP_POST_timestamp, storeTimestamp_cases by assumption.
  rewrite Hbody, Hread.
  pose proof (ParseInt_spec (io.content b)) as Hspec.
  destruct (decimalInt (io.content b)) as [v|].
  - destruct (in_int64 v).
    + rewrite Hspec. eexists. split; reflexivity.
    + destruct (strconv.ParseInt (io.content b) 0) as [u [e|]]; [|discriminate].
      eexists. split; reflexivity.
  - destruct (strconv.ParseInt (io.content b) 0) as [u [e|]];
      [|now contradiction Hspec].
    eexists. split; reflexivity.
Qed.

Lemma post_accepts_decimal_int64_witness :
  exists w,
    ServeHTTP NewInMemoryTimestampStore httptest.NewRecorder
      (NewRequest "POST" "/timestamp" (Some "+007"))
    = Some (StoreTimestamp 7 NewInMemoryTimestampStore, w)
    /\ httptest.Code w = 202.
Proof.
  exact (post_accepts_decimal_int64 NewInMemoryTimestampStore
           (NewRequest "POST" "/timestamp" (Some "+007"))
           {| io.content := "+007"; io.fails := false |}
           eq_refl eq_refl ltac:(discriminate) eq_refl eq_refl).
Defined.

(** X3: after a [POST /timestamp] whose body is any decimal text of an
    [int64] value [v] other than [-62135596800], [GET /timestamp] answers
    with the decimal text that [strconv.FormatInt] gives for [v] (no plus
    sign, no leading zeros), with status 200, or 404 when [v] is 0. *)
Theorem get_after_post_is_canonical
    (i : InMemoryTimestampStore) (r : http.Request) (b : io.ReadCloser) (v : Z) :
  http.Method r = "POST" -> http.EscapedPath r = "/timestamp" ->
  http.RequestURI r <> "*" ->
  http.Body r = Some b -> io.fails b = false ->
  decimalInt (io.content b) = Some v -> int64 v -> v <> -62135596800 ->
  exists i' w,
    ServeHTTP i httptest.NewRecorder r = Some (i', w)
    /\ httptest.Code w = 202
    /\ response (ServeHTTP i' httptest.NewRecorder newGetTimestampRequest)
       = Some (if v =? 0 then 404 else 200, strconv.FormatInt v).
Proof.
  intros Hm Hp Huri Hbody Hread Hdec Hv Hne.
  assert (Hparse : strconv.ParseInt (io.content b) 0 = (v, None))
    by (apply ParseInt_accepts; now split).
  rewrite ServeHTTP_POST_timestamp, storeTimestamp_cases by assumption.
  rewrite Hbody, Hread, Hparse.
  eexists _, _. split; [reflexivity|]. split; [reflexivity|].
  unfold newGetTimestampRequest.
  rewrite ServeHTTP_GET_timestamp by (reflexivity || discriminate).
  rewrite getTimestamp_response, InMemory_get_store by assumption.
  change (- time.unixToInternal) with (-62135596800).
  destruct (Z.eqb_spec v (-62135596800)); [contradiction|].
  destruct (v =? 0); reflexivity.
Qed.

Lemma get_after_post_is_canonical_witness :
  exists i' w,
    ServeHTTP NewInMemoryTimestampStore httptest.NewRecorder
      (NewRequest "POST" "/timestamp" (Some "+007")) = Some (i', w)
    /\ httptest.Code w = 202
    /\ response (ServeHTTP i' httptest.NewRecorder newGetTimestampRequest)
       = Some (200, "7").
Proof.
  exact (get_after_post_is_canonical NewInMemoryTimestampStore
           (NewRequest "POST" "/timestamp" (Some "+007"))
           {| io.content := "+007"; io.fails := false |} 7
           eq_refl eq_refl ltac:(discriminate) eq_refl eq_refl eq_refl
           ltac:(unfold int64; lia) ltac:(lia)).
Defined.

(** ** The two stores *)

Lemma Time_Unix_int64 t : int64 (time.Time_Unix t).
Proof. apply to_int64_range. Qed.

Lemma InMemory_GetTimestamp_int64 (i : InMemoryTimestampStore) : int64 (GetTimestamp i).
Proof.
  cbn [GetTimestamp InMemoryTimestampStore_store]. unfold InMemory_GetTimestamp.
  destruct (time.Time_IsZero (timestamp i)); [unfold int64; lia | apply Time_Unix_int64].
Qed.

Lemma Stub_GetTimestamp_int64 (s : StubTimestampStore) : int64 (GetTimestamp s).
Proof.
  cbn [GetTimestamp StubTimestampStore_store]. unfold Stub_GetTimestamp.
  destruct (time.Time_IsZero (stub_timestamp s)); [unfold int64; lia | apply Time_Unix_int64].
Qed.

Lemma Stub_get_store v (s : StubTimestampStore) :
  int64 v ->
  GetTimestamp (StoreTimestamp v s) = if v =? - time.unixToInternal then 0 else v.
Proof.
  intros Hv. cbn [GetTimestamp StoreTimestamp StubTimestampStore_store].
  unfold Stub_GetTimestamp, Stub_StoreTimestamp. cbn [stub_timestamp].
  rewrite Time_IsZero_Unix by assumption.
  destruct (Z.eqb_spec v (- time.unixToInternal)); [reflexivity|].
  now apply Time_Unix_Unix.
Qed.

(** X4: the store of the tests behaves as the in-memory store under the
    server: when both hold the same time, the server answers every request
    alike with either of them, and they hold the same time afterwards. *)
Theorem stub_simulates_in_memory
    (s : StubTimestampStore) (i : InMemoryTimestampStore)
    (w : httptest.ResponseRecorder) (r : http.Request) :
  stub_timestamp s = timestamp i ->
  match ServeHTTP s w r, ServeHTTP i w r with
  | Some (s', ws), Some (i', wi) => ws = wi /\ stub_timestamp s' = timestamp i'
  | None, None => True
  | _, _ => False
  end.
Proof.
  intros Hsame. rewrite !ServeHTTP_target.
  destruct (target r) as [[| |]|]; cbn [option_map handlerOf]; [| | |exact I].
  - split; [reflexivity | exact Hsame].
  - split; [|exact Hsame]. unfold getTimestamp.
    cbn [GetTimestamp StubTimestampStore_store InMemoryTimestampStore_store snd].
    unfold Stub_GetTimestamp, InMemory_GetTimestamp. rewrite Hsame. reflexivity.
  - unfold storeTimestamp.
    destruct (http.Body r) as [b|]; [|split; [reflexivity | exact Hsame]].
    destruct (io.ReadAll b) as [bodyBytes [e|]]; [split; [reflexivity | exact Hsame]|].
    destruct (strconv.ParseInt bodyBytes 0) as [v [e|]];
      split; (reflexivity || exact Hsame).
Qed.

Lemma stub_simulates_in_memory_witness :
  match ServeHTTP {| stub_timestamp := time.zero; storeCalls := [] |} httptest.NewRecorder
          (newPostTimestampRequest 1700000000),
        ServeHTTP NewInMemoryTimestampStore httptest.NewRecorder
          (newPostTimestampRequest 1700000000) with
  | Some (s', ws), Some (i', wi) => ws = wi /\ stub_timestamp s' = timestamp i'
  | None, None => True
  | _, _ => False
  end.
Proof.
  exact (stub_simulates_in_memory {| stub_timestamp := time.zero; storeCalls := [] |}
           NewInMemoryTimestampStore httptest.NewRecorder
           (newPostTimestampRequest 1700000000) eq_refl).
Defined.

Lemma serveAll_simulation rs :
  forall (s : StubTimestampStore) (i : InMemoryTimestampStore),
    stub_timestamp s = timestamp i ->
    stub_timestamp (serveAll s rs) = timestamp (serveAll i rs).
Proof.
  induction rs as [|r rs IH]; intros s i Hsame; [exact Hsame|].
  cbn [serveAll].
  pose proof (stub_simulates_in_memory s i httptest.NewRecorder r Hsame) as Hstep.
  destruct (ServeHTTP s httptest.NewRecorder r) as [[s' ws]|],
           (ServeHTTP i httptest.NewRecorder r) as [[i' wi]|];
    try contradiction.
  - apply IH. apply Hstep.
  - now apply IH.
Qed.

(** ** Sequences of requests: last writer wins *)

Lemma accepted_int64 r v : accepted r = Some v -> int64 v.
Proof.
  unfold accepted.
  destruct (target r) as [[| |]|]; try discriminate.
  destruct (http.Body r) as [b|]; [|discriminate].
  destruct (io.fails b); [discriminate|].
  destruct (strconv.ParseInt (io.content b) 0) as [u [e|]] eqn:Hparse; [discriminate|].
  intros [= <-]. now apply ParseInt_accepts in Hparse.
Qed.

Lemma serveAll_cons {S} `{TimestampStore S} (t : S) r rs :
  serveAll t (r :: rs)
  = serveAll (match accepted r with Some v => StoreTimestamp v t | None => t end) rs.
Proof.
  cbn [serveAll]. rewrite ServeHTTP_target. unfold accepted.
  destruct (target r) as [[| |]|]; cbn [option_map handlerOf]; try reflexivity.
  rewrite storeTimestamp_cases.
  destruct (http.Body r) as [b|]; [|reflexivity].
  destruct (io.fails b); [reflexivity|].
  destruct (strconv.ParseInt (io.content b) 0) as [v [e|]]; reflexivity.
Qed.

(** X5: for every implementation of the store, serving a sequence of
    requests leaves the store as the calls of [StoreTimestamp] with the
    accepted values, in the order of the requests, leave it; the store of
    the tests records exactly those values. *)
Theorem serveAll_stores_accepted :
  (forall S (store_S : TimestampStore S) (t : S) (rs : list http.Request),
      serveAll t rs
      = fold_left (fun t v => StoreTimestamp v t) (omap accepted rs) t)
  /\ (forall (s : StubTimestampStore) (rs : list http.Request),
         storeCalls (serveAll s rs) = (storeCalls s ++ omap accepted rs)%list).
Proof.
  assert (Hfold : forall S (store_S : TimestampStore S) (rs : list http.Request) (t : S),
             serveAll t rs
             = fold_left (fun t v => StoreTimestamp v t) (omap accepted rs) t).
  { intros S store_S rs. induction rs as [|r rs IH]; intros t; [reflexivity|].
    rewrite serveAll_cons, IH. cbn [omap list_omap].
    destruct (accepted r); reflexivity. }
  split; [intros; apply Hfold|].
  intros s rs. rewrite Hfold. revert s.
  induction (omap accepted rs) as [|v vs IH]; intros s; cbn [fold_left].
  - now rewrite app_nil_r.
  - rewrite IH. cbn [StoreTimestamp StubTimestampStore_store Stub_StoreTimestamp storeCalls].
    now rewrite <- app_assoc.
Qed.

(** X6: after any sequence of requests, the in-memory store reports the
    value of the last accepted [POST /timestamp] (0 when that value is
    [-62135596800]), and what it reported before when none was accepted. *)
Theorem last_writer_wins (i : InMemoryTimestampStore) (rs : list http.Request) :
  GetTimestamp (serveAll i rs)
  = match last (omap accepted rs) with
    | Some v => if v =? -62135596800 then 0 else v
    | None => GetTimestamp i
    end.
Proof.
  revert i. induction rs as [|r rs IH]; intros i; [reflexivity|].
  rewrite serveAll_cons, IH. cbn [omap list_omap].
  destruct (accepted r) as [v|] eqn:Hacc; [|reflexivity].
  destruct (omap accepted rs) as [|v' vs].
  - cbn [last]. rewrite InMemory_get_store by (eapply accepted_int64; eassumption).
    reflexivity.
  - change (last (v :: v' :: vs)) with (last (v' :: vs)).
    destruct (last (v' :: vs)) eqn:Hlast; [reflexivity|].
    apply last_None in Hlast. discriminate.
Qed.

(** ** [HEAD] requests *)

Lemma target_HEAD r :
  http.Method r = "HEAD" ->
  target r
  = target {| http.Method := "GET"; http.RequestURI := http.RequestURI r;
              http.EscapedPath := http.EscapedPath r; http.Body := http.Body r |}.
Proof.
  intros Hm. unfold target, http.findHandler, http.matchOrRedirect.
  cbn [http.Method http.RequestURI http.EscapedPath]. rewrite Hm.
  rewrite !matchMethodAndPath_routes. reflexivity.
Qed.

(** X7: the server answers a [HEAD] request as it answers the [GET] request
    for the same target: [HEAD /timestamp] reads the store, and every other
    [HEAD] request gets the answer of the not-found handler. *)
Theorem head_served_as_get {S} `{TimestampStore S}
    (t : S) (w : httptest.ResponseRecorder) (r : http.Request) :
  http.Method r = "HEAD" ->
  ServeHTTP t w r
  = ServeHTTP t w {| http.Method := "GET"; http.RequestURI := http.RequestURI r;
                     http.EscapedPath := http.EscapedPath r;
                     http.Body := http.Body r |}.
Proof.
  intros Hm. rewrite !ServeHTTP_target, <- (target_HEAD r Hm).
  destruct (target r) as [[| |]|]; reflexivity.
Qed.

Lemma head_served_as_get_witness :
  ServeHTTP (StoreTimestamp 5 NewInMemoryTimestampStore) httptest.NewRecorder
    (NewRequest "HEAD" "/timestamp" None)
  = ServeHTTP (StoreTimestamp 5 NewInMemoryTimestampStore) httptest.NewRecorder
      (NewRequest "GET" "/timestamp" None).
Proof.
  exact (head_served_as_get (StoreTimestamp 5 NewInMemoryTimestampStore)
           httptest.NewRecorder (NewRequest "HEAD" "/timestamp" None) eq_refl).
Defined.

(** ** The body of a [GET] response *)

(** X8: the body of the response to [GET /timestamp] always parses back,
    with [strconv.ParseInt], to the value that the store reports, so that
    [assertResponseBody] reports no failure for it; the status is 404 when
    that value is 0 and 200 otherwise. *)
Theorem get_body_parses_back {S} `{TimestampStore S}
    (t : S) (r : http.Request) (tb : testing.TB) :
  http.Method r = "GET" -> http.EscapedPath r = "/timestamp" ->
  http.RequestURI r <> "*" ->
  int64 (GetTimestamp t) ->
  exists w,
    ServeHTTP t httptest.NewRecorder r = Some (t, w)
    /\ httptest.Code w = (if GetTimestamp t =? 0 then 404 else 200)
    /\ strconv.ParseInt (httptest.Body w) 0 = (GetTimestamp t, None)
    /\ assertResponseBody tb w (GetTimestamp t) = tb.
Proof.
  intros Hm Hp Huri Hrange.
  rewrite ServeHTTP_GET_timestamp, getTimestamp_response by assumption.
  eexists. split; [reflexivity|].
  assert (Hbody : httptest.Body
                    (httptest.Write (strconv.FormatInt (GetTimestamp t))
                       (if GetTimestamp t =? 0
                        then httptest.WriteHeader 404
                               (httptest.Header_Set "Content-Type" "text/plain"
                                  httptest.NewRecorder)
                        else httptest.Header_Set "Content-Type" "text/plain"
                               httptest.NewRecorder))
                  = strconv.FormatInt (GetTimestamp t))
    by (destruct (GetTimestamp t =? 0); reflexivity).
  split; [destruct (GetTimestamp t =? 0); reflexivity|].
  unfold assertResponseBody. rewrite Hbody, ParseInt_FormatInt by assumption.
  split; [reflexivity|]. now rewrite Z.eqb_refl.
Qed.

Lemma get_body_parses_back_witness :
  exists w,
    ServeHTTP (StoreTimestamp (-5) NewInMemoryTimestampStore) httptest.NewRecorder
      newGetTimestampRequest
    = Some (StoreTimestamp (-5) NewInMemoryTimestampStore, w)
    /\ httptest.Code w = 200
    /\ strconv.ParseInt (httptest.Body w) 0 = (-5, None)
    /\ assertResponseBody [] w (-5) = [].
Proof.
  exact (get_body_parses_back (StoreTimestamp (-5) NewInMemoryTimestampStore)
           newGetTimestampRequest [] eq_refl eq_refl ltac:(discriminate)
           ltac:(change (int64 (-5)); unfold int64; lia)).
Defined.

(** ** The tests of the package, for every timestamp *)

Lemma string_length_app s t :
  String.length (s +:+ t) = (String.length s + String.length t)%nat.
Proof.
  induction s as [|c s IH]; simpl; [reflexivity | now f_equal].
Qed.

Lemma substring_all t : substring 0 (String.length t) t = t.
Proof.
  induction t as [|c t IH]; simpl; [reflexivity | now f_equal].
Qed.

Lemma substring_app_r s t :
  substring (String.length s) (String.length t) (s +:+ t) = t.
Proof.
  induction s as [|c s IH]; simpl; [apply substring_all | exact IH].
Qed.

Lemma substring_app_l s t : substring 0 (String.length s) (s +:+ t) = s.
Proof.
  induction s as [|c s IH]; simpl; [destruct t; reflexivity | now f_equal].
Qed.

Lemma TrimSuffix_app s suffix : strings.TrimSuffix (s +:+ suffix) suffix = s.
Proof.
  unfold strings.TrimSuffix, strings.HasSuffix.
  rewrite string_length_app.
  replace (String.length s + String.length suffix - String.length suffix)%nat
    with (String.length s) by lia.
  rewrite substring_app_r, substring_app_l, String.eqb_refl, andb_true_r.
  destruct (Nat.leb_spec (String.length suffix) (String.length s + String.length suffix));
    [reflexivity | lia].
Qed.

Lemma assertStatus_same tb code : assertStatus tb code code = tb.
Proof. unfold assertStatus. now rewrite Z.eqb_refl. Qed.

Lemma assertTimestamp_same tb v : assertTimestamp tb v v = tb.
Proof. unfold assertTimestamp. now rewrite Z.eqb_refl. Qed.

Lemma ServeHTTP_newPostTimestampRequest {S} `{TimestampStore S} (t : S) v :
  int64 v ->
  ServeHTTP t httptest.NewRecorder (newPostTimestampRequest v)
  = Some (StoreTimestamp v t, httptest.WriteHeader 202 httptest.NewRecorder).
Proof.
  intros Hv. unfold newPostTimestampRequest.
  rewrite ServeHTTP_POST_timestamp by (reflexivity || discriminate).
  rewrite storeTimestamp_cases.
  cbn [NewRequest http.Body option_map io.fails io.content].
  now rewrite ParseInt_FormatInt.
Qed.

Lemma ServeHTTP_newGetTimestampRequest {S} `{TimestampStore S} (t : S) :
  response (ServeHTTP t httptest.NewRecorder newGetTimestampRequest)
  = Some (if GetTimestamp t =? 0 then 404 else 200, strconv.FormatInt (GetTimestamp t)).
Proof.
  unfold newGetTimestampRequest.
  rewrite ServeHTTP_GET_timestamp by (reflexivity || discriminate).
  rewrite getTimestamp_response. destruct (GetTimestamp t =? 0); reflexivity.
Qed.

(** The helper of the tests, for any store: what it reports and returns
    comes from the answer to its [GET]. *)
Lemma storeAndRetireve_steps {S} `{TimestampStore S} (tb : testing.TB) (t : S) v :
  int64 v ->
  storeAndRetireve tb t v
  = Some (assertStatus tb (if GetTimestamp (StoreTimestamp v t) =? 0 then 404 else 200) 200,
          StoreTimestamp v t,
          strconv.ParseInt (strconv.FormatInt (GetTimestamp (StoreTimestamp v t))) 0).
Proof.
  intros Hv. unfold storeAndRetireve.
  rewrite ServeHTTP_newPostTimestampRequest by assumption.
  change (httptest.Code (httptest.WriteHeader 202 httptest.NewRecorder)) with 202.
  rewrite assertStatus_same.
  pose proof (ServeHTTP_newGetTimestampRequest (StoreTimestamp v t)) as Hget.
  unfold newGetTimestampRequest in *.
  rewrite ServeHTTP_GET_timestamp in * by (reflexivity || discriminate).
  cbn [response] in Hget.
  destruct (getTimestamp (StoreTimestamp v t) httptest.NewRecorder
              (NewRequest "GET" "/timestamp" None)) as [t' w] eqn:Hserved.
  injection Hget as Hcode Hbody. rewrite Hcode, Hbody.
  rewrite getTimestamp_response in Hserved. injection Hserved as <- _.
  reflexivity.
Qed.

(** X9: [storeAndRetireve] on a server with the in-memory store, for every
    [int64] timestamp: the [POST] is accepted and stores the timestamp, the
    value returned is the timestamp (0 for [-62135596800]) with no error,
    and the only failure reported is the status 404 of the [GET], for the
    timestamps 0 and [-62135596800]. *)
Theorem storeAndRetireve_spec
    (tb : testing.TB) (i : InMemoryTimestampStore) (v : Z) :
  int64 v ->
  storeAndRetireve tb i v
  = Some ((tb ++ if (v =? 0) || (v =? -62135596800)
                 then [testing.Errorf "haven't got the expected status, got %d want %d"
                         [testing.ArgInt 404; testing.ArgInt 200]]
                 else [])%list,
          StoreTimestamp v i,
          (if v =? -62135596800 then 0 else v, None)).
Proof.
  intros Hv. rewrite storeAndRetireve_steps, InMemory_get_store by assumption.
  change (- time.unixToInternal) with (-62135596800).
  destruct (Z.eqb_spec v (-62135596800)) as [-> | Hne]; [reflexivity|].
  rewrite orb_false_r, ParseInt_FormatInt by assumption.
  destruct (Z.eqb_spec v 0) as [-> | Hnz]; [reflexivity|].
  now rewrite assertStatus_same, app_nil_r.
Qed.

Lemma storeAndRetireve_spec_witness :
  storeAndRetireve [] NewInMemoryTimestampStore 1700000000
  = Some ([], StoreTimestamp 1700000000 NewInMemoryTimestampStore, (1700000000, None)).
Proof.
  exact (storeAndRetireve_spec [] NewInMemoryTimestampStore 1700000000
           ltac:(unfold int64; lia)).
Defined.

(** X10: the subtest ["test store and retrieve"] passes for every [int64]
    timestamp but 0 and [-62135596800], and fails for these two. *)
Theorem TestStoreAndRetrieve_passes (v : Z) :
  int64 v ->
  TestStoreAndRetrieve [] v = Some [] <-> v <> 0 /\ v <> -62135596800.
Proof.
  intros Hv. unfold TestStoreAndRetrieve.
  rewrite storeAndRetireve_steps, InMemory_get_store by assumption.
  change (- time.unixToInternal) with (-62135596800).
  destruct (Z.eqb_spec v (-62135596800)) as [-> | Hne].
  - split; [discriminate | intros [_ Habs]; now contradiction Habs].
  - rewrite ParseInt_FormatInt by assumption. cbn [assertNoError].
    rewrite assertTimestamp_same.
    destruct (Z.eqb_spec v 0) as [-> | Hnz].
    + split; [discriminate | intros [Habs _]; now contradiction Habs].
    + rewrite assertStatus_same. split; [now split | reflexivity].
Qed.

Lemma TestStoreAndRetrieve_passes_witness : TestStoreAndRetrieve [] 1700000000 = Some [].
Proof.
  apply (TestStoreAndRetrieve_passes 1700000000); [unfold int64; lia | split; lia].
Defined.

(** X11: the subtest of [TestTimestampServerStore] passes for every [int64]
    timestamp: the request that [newPostTimestampRequest] builds is
    accepted, and the store of the tests records one call, with that
    timestamp. *)
Theorem TestTimestampServerStore_passes (v : Z) :
  int64 v -> TestTimestampServerStore [] v = Some [].
Proof.
  intros Hv. unfold TestTimestampServerStore.
  rewrite ServeHTTP_newPostTimestampRequest by assumption.
  cbn [StoreTimestamp StubTimestampStore_store Stub_StoreTimestamp storeCalls app
       length Nat.eqb negb].
  change (httptest.Code (httptest.WriteHeader 202 httptest.NewRecorder)) with 202.
  now rewrite assertStatus_same, Z.eqb_refl.
Qed.

Lemma TestTimestampServerStore_passes_witness :
  TestTimestampServerStore [] (-62135596800) = Some [].
Proof.
  apply (TestTimestampServerStore_passes (-62135596800)). unfold int64. lia.
Defined.

(** X12: the subtest of [TestClient] passes for every [int64] timestamp but
    [-62135596800], for which the client prints 0. *)
Theorem TestClient_passes (v : Z) :
  int64 v -> TestClient [] v = Some [] <-> v <> -62135596800.
Proof.
  intros Hv. unfold TestClient, Run.
  cbn [store out StoreTimestamp StubTimestampStore_store Stub_StoreTimestamp storeCalls
       app length Nat.eqb negb].
  rewrite assertTimestamp_same.
  change (GetTimestamp {| stub_timestamp := time.Unix v 0; storeCalls := [v] |})
    with (GetTimestamp
            (StoreTimestamp v {| stub_timestamp := time.zero; storeCalls := [] |})).
  rewrite Stub_get_store by assumption.
  change (- time.unixToInternal) with (-62135596800).
  unfold fmt.Fprintln, Write, Buffer_Writer.
  change ("" +:+ ?s) with s.
  rewrite TrimSuffix_app.
  destruct (Z.eqb_spec v (-62135596800)) as [-> | Hne].
  - split; [discriminate | intros Habs; now contradiction Habs].
  - rewrite String.eqb_refl. split; [intros _; exact Hne | reflexivity].
Qed.

Lemma TestClient_passes_witness : TestClient [] 1700000000 = Some [].
Proof.
  apply (TestClient_passes 1700000000); [unfold int64; lia | lia].
Defined.

(** ** The client with the in-memory store *)

Lemma Run_InMemory_witness :
  out (Run {| store := NewInMemoryTimestampStore; out := "" |} 1700000000)
  = "1700000000" +:+ newline.
Proof.
  exact (Run_InMemory {| store := NewInMemoryTimestampStore; out := "" |} 1700000000
           ltac:(unfold int64; lia) ltac:(lia)).
Defined.

(** ** A fresh server, and requests served twice *)

Lemma serveAll_none_accepted {S} `{TimestampStore S} rs :
  omap accepted rs = [] -> forall t : S, serveAll t rs = t.
Proof.
  induction rs as [|r rs IH]; intros Hnone t; [reflexivity|].
  rewrite serveAll_cons. cbn [omap list_omap] in Hnone.
  destruct (accepted r); [discriminate|]. now apply IH.
Qed.

(** X15: a server with a fresh in-memory store answers [GET /timestamp]
    with status 404 and the body [0] for as long as no [POST /timestamp] was
    accepted, whatever other requests it served. *)
Theorem fresh_server_unset (rs : list http.Request) :
  omap accepted rs = [] ->
  response (ServeHTTP (serveAll NewInMemoryTimestampStore rs) httptest.NewRecorder
              newGetTimestampRequest)
  = Some (404, "0").
Proof.
  intros Hnone. rewrite serveAll_none_accepted by assumption.
  rewrite ServeHTTP_newGetTimestampRequest. reflexivity.
Qed.

Lemma fresh_server_unset_witness :
  response (ServeHTTP
              (serveAll NewInMemoryTimestampStore
                 [ NewRequest "POST" "/timestamp" (Some "abc");
                   NewRequest "PUT" "/timestamp" (Some "5");
                   NewRequest "POST" "/timestamp" None;
                   NewRequest "GET" "/" None ])
              httptest.NewRecorder newGetTimestampRequest)
  = Some (404, "0").
Proof.
  exact (fresh_server_unset
           [ NewRequest "POST" "/timestamp" (Some "abc");
             NewRequest "PUT" "/timestamp" (Some "5");
             NewRequest "POST" "/timestamp" None;
             NewRequest "GET" "/" None ] eq_refl).
Defined.

Lemma serveAll_app {S} `{TimestampStore S} rs rs' :
  forall t : S, serveAll t (rs ++ rs') = serveAll (serveAll t rs) rs'.
Proof.
  induction rs as [|r rs IH]; intros t; [reflexivity|].
  rewrite <- app_comm_cons, !serveAll_cons. apply IH.
Qed.

(** X16: the in-memory store keeps nothing of its history: right after an
    accepted [POST /timestamp] of the value [v] it holds [time.Unix(v, 0)],
    whatever it held and whatever requests were served before; so serving
    that request twice leaves the store as serving it once does. *)
Theorem accepted_post_overwrites
    (i : InMemoryTimestampStore) (rs : list http.Request) (r : http.Request) (v : Z) :
  accepted r = Some v ->
  serveAll i (rs ++ [r]) = {| timestamp := time.Unix v 0 |}
  /\ serveAll i (rs ++ [r; r]) = serveAll i (rs ++ [r]).
Proof.
  intros Hacc. rewrite !serveAll_app, !serveAll_cons, Hacc. split; reflexivity.
Qed.

Lemma accepted_post_overwrites_witness :
  serveAll NewInMemoryTimestampStore
    [ NewRequest "POST" "/timestamp" (Some "5"); NewRequest "POST" "/timestamp" (Some "7") ]
  = {| timestamp := time.Unix 7 0 |}.
Proof.
  exact (proj1 (accepted_post_overwrites NewInMemoryTimestampStore
                  [ NewRequest "POST" "/timestamp" (Some "5") ]
                  (NewRequest "POST" "/timestamp" (Some "7")) 7 eq_refl)).
Defined.

(** * The text that [strconv.FormatInt] writes *)

Lemma append_nil t : "" +:+ t = t.
Proof. reflexivity. Qed.

Lemma append_cons a s t : String a s +:+ t = String a (s +:+ t).
Proof. reflexivity. Qed.

Lemma string_snoc_ind (P : string -> Prop) :
  P "" -> (forall s c, P s -> P (s +:+ String c "")) -> forall s, P s.
Proof.
  intros Hnil Hsnoc s.
  rewrite <- (string_of_list_ascii_of_string s).
  induction (list_ascii_of_string s) as [|c l IH] using rev_ind; [exact Hnil|].
  replace (string_of_list_ascii (l ++ [c]))
    with (string_of_list_ascii l +:+ String c "").
  - now apply Hsnoc.
  - clear. induction l as [|a l IH]; [reflexivity|].
    cbn [string_of_list_ascii app]. rewrite append_cons. now f_equal.
Qed.

Lemma digitsValue_snoc s c :
  forall n, digitsValue (s +:+ String c "") n = digitsValue s n * 10 + (byte c - byte "0").
Proof.
  induction s as [|a s IH]; intros n; [reflexivity|].
  rewrite append_cons. cbn [digitsValue]. apply IH.
Qed.

Lemma allDigits_snoc s c : allDigits (s +:+ String c "") = allDigits s && isDigit c.
Proof.
  induction s as [|a s IH].
  - rewrite append_nil. cbn [allDigits]. now rewrite andb_true_r.
  - rewrite append_cons. cbn [allDigits]. now rewrite IH, andb_assoc.
Qed.

Lemma string_app_assoc s t u : (s +:+ t) +:+ u = s +:+ (t +:+ u).
Proof.
  induction s as [|a s IH]; [reflexivity|].
  rewrite !append_cons. now f_equal.
Qed.

Lemma digit_of_isDigit c : isDigit c = true -> strconv.digit (byte c - byte "0") = c.
Proof.
  intros Hc. destruct (isDigit_digitVal c Hc) as [_ Hd].
  unfold strconv.digit.
  replace (byte "0" + (byte c - byte "0")) with (byte c) by lia.
  unfold byte. rewrite N2Z.id. apply ascii_N_embedding.
Qed.

(** Digits without a leading zero: empty, or starting with another digit. *)
Lemma canonicalDigits_snoc s c :
  canonicalDigits (s +:+ String c "") = true ->
  isDigit c = true
  /\ (s = "" /\ c <> "0"%char \/ canonicalDigits s = true).
Proof.
  destruct s as [|a s]; [rewrite append_nil | rewrite append_cons];
    cbn [canonicalDigits allDigits].
  - rewrite andb_true_r. intros Hc. apply andb_true_iff in Hc as [Hd Hz].
    split; [exact Hd|]. left. split; [reflexivity|].
    intros ->. discriminate.
  - rewrite allDigits_snoc, andb_assoc. intros Hc.
    apply andb_true_iff in Hc as [Hs Hd]. split; [exact Hd | now right].
Qed.

Lemma canonicalDigits_value s :
  canonicalDigits s = true ->
  10 ^ Z.of_nat (String.length s - 1) <= digitsValue s 0
  < 10 ^ Z.of_nat (String.length s).
Proof.
  induction s as [|s c IH] using string_snoc_ind; [discriminate|].
  intros Hcan. apply canonicalDigits_snoc in Hcan as [Hc Hs].
  destruct (isDigit_digitVal c Hc) as [_ Hd].
  rewrite digitsValue_snoc, string_length_app. cbn [String.length].
  destruct Hs as [[-> Hnz] | Hs].
  - cbn. assert (byte c <> byte "0").
    { intros Heq. apply Hnz. unfold byte in Heq.
      apply N2Z.inj in Heq. rewrite <- (ascii_N_embedding c), Heq. reflexivity. }
    lia.
  - specialize (IH Hs). destruct s as [|a s]; [discriminate|].
    cbn [String.length] in *.
    replace (S (String.length s) + 1 - 1)%nat with (S (String.length s - 0)) by lia.
    replace (S (String.length s) + 1)%nat with (S (S (String.length s))) by lia.
    replace (S (String.length s) - 1)%nat with (String.length s - 0)%nat in IH by lia.
    rewrite !Nat2Z.inj_succ, !Z.pow_succ_r in * by lia. lia.
Qed.

(** [formatBits] gives back digits without a leading zero from their
    value. *)
Lemma formatBits_digitsValue s :
  canonicalDigits s = true ->
  forall fuel acc,
    (String.length s <= fuel)%nat ->
    strconv.formatBits fuel (digitsValue s 0) acc = s +:+ acc.
Proof.
  induction s as [|s c IH] using string_snoc_ind; [discriminate|].
  intros Hcan fuel acc Hfuel.
  pose proof Hcan as Hcan'. apply canonicalDigits_snoc in Hcan' as [Hc Hs].
  destruct (isDigit_digitVal c Hc) as [_ Hd].
  rewrite string_length_app in Hfuel. cbn [String.length] in Hfuel.
  destruct fuel as [|fuel]; [lia|].
  rewrite digitsValue_snoc. cbn [strconv.formatBits].
  replace ((digitsValue s 0 * 10 + (byte c - byte "0")) mod 10)
    with (byte c - byte "0")
    by (rewrite Z.add_comm, Z_mod_plus_full; symmetry; apply Z.mod_small; lia).
  rewrite digit_of_isDigit by exact Hc.
  destruct Hs as [[-> Hnz] | Hs].
  - cbn [digitsValue]. destruct (Z.ltb_spec (0 * 10 + (byte c - byte "0")) 10); [|lia].
    reflexivity.
  - pose proof (canonicalDigits_value s Hs) as [Hlow _].
    assert (1 <= digitsValue s 0)
      by (pose proof (Z.pow_pos_nonneg 10 (Z.of_nat (String.length s - 1))
                        ltac:(lia) ltac:(lia)); lia).
    destruct (Z.ltb_spec (digitsValue s 0 * 10 + (byte c - byte "0")) 10); [lia|].
    replace ((digitsValue s 0 * 10 + (byte c - byte "0")) / 10) with (digitsValue s 0)
      by (rewrite Z.add_comm, Z_div_plus_full, Z.div_small by lia; lia).
    rewrite IH by (assumption || lia).
    now rewrite string_app_assoc.
Qed.

Lemma isDigit_digit d :
  0 <= d < 10 ->
  isDigit (strconv.digit d) = true /\ Ascii.eqb (strconv.digit d) "0" = (d =? 0).
Proof.
  intros Hd.
  assert (Hcases : d = 0 \/ d = 1 \/ d = 2 \/ d = 3 \/ d = 4 \/
                   d = 5 \/ d = 6 \/ d = 7 \/ d = 8 \/ d = 9) by lia.
  repeat (destruct Hcases as [-> | Hcases]; [split; reflexivity|]).
  subst d. split; reflexivity.
Qed.

(** [formatBits] writes digits without a leading zero for a positive
    number. *)
Lemma formatBits_canonical fuel :
  forall u acc,
    1 <= u < 10 ^ Z.of_nat fuel -> allDigits acc = true ->
    canonicalDigits (strconv.formatBits fuel u acc) = true.
Proof.
  induction fuel as [|fuel IH]; intros u acc Hu Hacc; [cbn in Hu; lia|].
  rewrite Nat2Z.inj_succ, Z.pow_succ_r in Hu by lia.
  cbn [strconv.formatBits].
  pose proof (Z.mod_pos_bound u 10 ltac:(lia)) as Hmod.
  destruct (isDigit_digit (u mod 10) Hmod) as [Hdigit Hzero].
  destruct (Z.ltb_spec u 10) as [Hlt | Hge].
  - cbn [canonicalDigits]. rewrite Hdigit, Hzero, Hacc, Z.mod_small by lia.
    destruct (Z.eqb_spec u 0); [lia | reflexivity].
  - pose proof (Z.div_mod u 10 ltac:(lia)) as Hdm.
    apply IH; [lia|]. cbn [allDigits]. now rewrite Hdigit, Hacc.
Qed.

Lemma to_uint64_neg v : - 2 ^ 63 <= v < 0 -> to_uint64 (- to_uint64 v) = - v.
Proof.
  intros Hv. unfold to_uint64.
  replace v with (v + 2 ^ 64 + (-1) * 2 ^ 64) at 1 by lia.
  rewrite Z_mod_plus_full, (Z.mod_small (v + 2 ^ 64)) by lia.
  replace (- (v + 2 ^ 64)) with (- v + (-1) * 2 ^ 64) by lia.
  rewrite Z_mod_plus_full, Z.mod_small by lia. reflexivity.
Qed.

Lemma FormatInt_is_canonical v : int64 v -> canonicalDecimal (strconv.FormatInt v) = true.
Proof.
  unfold int64. intros Hv. unfold strconv.FormatInt, canonicalDecimal.
  destruct (Z.ltb_spec v 0) as [Hneg | Hpos].
  - rewrite to_uint64_neg by lia.
    change (Ascii.eqb "-" "-") with true. cbn [andb].
    rewrite formatBits_canonical;
      [now rewrite orb_true_r | change (10 ^ Z.of_nat 20) with 100000000000000000000; lia
       | reflexivity].
  - assert (Hu : to_uint64 v = v) by (unfold to_uint64; apply Z.mod_small; lia).
    rewrite Hu. destruct (Z.eq_dec v 0) as [-> | Hnz]; [reflexivity|].
    rewrite (formatBits_canonical 20 v "");
      [now rewrite orb_true_r
      | change (10 ^ Z.of_nat 20) with 100000000000000000000; lia
      | reflexivity].
Qed.

Lemma decimalInt_FormatInt v : int64 v -> decimalInt (strconv.FormatInt v) = Some v.
Proof.
  intros Hv. pose proof (ParseInt_FormatInt v Hv) as Hparse.
  now apply ParseInt_accepts in Hparse.
Qed.

Lemma append_nil_r s : s +:+ "" = s.
Proof. induction s as [|a s IH]; [reflexivity|]. rewrite append_cons. now f_equal. Qed.

Lemma canonicalDigits_length s :
  canonicalDigits s = true -> digitsValue s 0 <= 2 ^ 63 -> (String.length s <= 20)%nat.
Proof.
  intros Hcan Hle. pose proof (canonicalDigits_value s Hcan) as [Hlow _].
  destruct (le_lt_dec (String.length s) 20) as [Hok | Hlong]; [exact Hok|].
  pose proof (Z.pow_le_mono_r 10 20 (Z.of_nat (String.length s - 1))
                ltac:(lia) ltac:(lia)) as Hpow.
  change (10 ^ 20) with 100000000000000000000 in Hpow. lia.
Qed.

Lemma canonicalDigits_decimalInt s :
  canonicalDigits s = true ->
  decimalInt s = Some (digitsValue s 0) /\ 1 <= digitsValue s 0.
Proof.
  intros Hcan. pose proof (canonicalDigits_value s Hcan) as [Hlow _].
  pose proof (Z.pow_pos_nonneg 10 (Z.of_nat (String.length s - 1))
                ltac:(lia) ltac:(lia)) as Hpos.
  split; [|lia].
  destruct s as [|c rest]; [discriminate|]. cbn [canonicalDigits] in Hcan.
  apply andb_true_iff in Hcan as [Hc Hrest].
  apply andb_true_iff in Hc as [Hdigit _].
  unfold decimalInt.
  assert (Hsign : Ascii.eqb c "-" = false /\ Ascii.eqb c "+" = false).
  { split; apply Ascii.eqb_neq; intros ->; discriminate. }
  destruct Hsign as [-> ->].
  cbn [String.eqb negb andb allDigits]. now rewrite Hdigit, Hrest.
Qed.

(** [FormatInt v] is the one decimal text in canonical form that denotes
    [v]. *)
Lemma FormatInt_unique v s :
  int64 v -> canonicalDecimal s = true -> decimalInt s = Some v ->
  s = strconv.FormatInt v.
Proof.
  unfold int64, canonicalDecimal. intros Hv Hcan Hdec.
  apply orb_true_iff in Hcan as [Hcan | Hminus];
    [apply orb_true_iff in Hcan as [Hzero | Hdigits]|].
  - apply String.eqb_eq in Hzero. subst s. now injection Hdec as <-.
  - destruct (canonicalDigits_decimalInt s Hdigits) as [Hval Hpos].
    rewrite Hval in Hdec. injection Hdec as <-.
    unfold strconv.FormatInt.
    destruct (Z.ltb_spec (digitsValue s 0) 0); [lia|].
    assert (Hu : to_uint64 (digitsValue s 0) = digitsValue s 0)
      by (unfold to_uint64; apply Z.mod_small; lia).
    rewrite Hu, formatBits_digitsValue, append_nil_r;
      [reflexivity | assumption | apply canonicalDigits_length; [assumption | lia]].
  - destruct s as [|c ds]; [discriminate|].
    apply andb_true_iff in Hminus as [Hc Hdigits].
    apply Ascii.eqb_eq in Hc. subst c.
    destruct (canonicalDigits_decimalInt ds Hdigits) as [Hval Hpos].
    assert (Hds : decimalInt (String "-" ds) = Some (- digitsValue ds 0)).
    { unfold decimalInt in *. change (Ascii.eqb "-" "-") with true. cbv beta iota.
      destruct ds as [|d rest]; [discriminate|].
      cbn [canonicalDigits] in Hdigits.
      apply andb_true_iff in Hdigits as [Hd Hrest].
      apply andb_true_iff in Hd as [Hdigit _].
      cbn [String.eqb negb andb allDigits]. now rewrite Hdigit, Hrest. }
    rewrite Hds in Hdec. injection Hdec as <-.
    unfold strconv.FormatInt.
    destruct (Z.ltb_spec (- digitsValue ds 0) 0); [|lia].
    rewrite to_uint64_neg, Z.opp_involutive by lia.
    rewrite formatBits_digitsValue, append_nil_r;
      [reflexivity | assumption | apply canonicalDigits_length; [assumption | lia]].
Qed.

(** C9: [Client.Run(t)] calls [StoreTimestamp t], then reads the store back
    and appends to its output one line: the decimal text of the value it
    read (the one text in canonical form, without plus sign or leading
    zeros, that denotes that value) followed by the newline byte 10.  On
    the store of the tests exactly one call of [StoreTimestamp], with [t],
    is recorded. *)
Theorem Run_prints_decimal_line :
  (forall S (store_S : TimestampStore S) (c : Client S string) (t : Z),
      int64 (GetTimestamp (StoreTimestamp t (store c))) ->
      store (Run c t) = StoreTimestamp t (store c)
      /\ exists text,
           out (Run c t) = out c +:+ text +:+ String (ascii_of_nat 10) ""
           /\ canonicalDecimal text = true
           /\ decimalInt text = Some (GetTimestamp (StoreTimestamp t (store c)))
           /\ forall s,
                canonicalDecimal s = true ->
                decimalInt s = Some (GetTimestamp (StoreTimestamp t (store c))) ->
                s = text)
  /\ (forall (c : Client StubTimestampStore string) (t : Z),
         storeCalls (store (Run c t)) = (storeCalls (store c) ++ [t])%list).
Proof.
  split.
  - intros S store_S c t Hrange. split; [reflexivity|].
    exists (strconv.FormatInt (GetTimestamp (StoreTimestamp t (store c)))).
    split; [reflexivity|].
    split; [now apply FormatInt_is_canonical|].
    split; [now apply decimalInt_FormatInt|].
    intros s Hcan Hdec. now apply FormatInt_unique.
  - intros c t. reflexivity.
Qed.

Lemma Run_prints_decimal_line_witness :
  out (Run {| store := {| stub_timestamp := time.zero; storeCalls := [] |}; out := "" |}
         1700000000)
  = "1700000000" +:+ String (ascii_of_nat 10) "".
Proof.
  assert (Hrange : int64 (GetTimestamp
                            (StoreTimestamp 1700000000
                               {| stub_timestamp := time.zero; storeCalls := [] |})))
    by (change (int64 1700000000); unfold int64; lia).
  destruct (proj1 Run_prints_decimal_line StubTimestampStore StubTimestampStore_store
              {| store := {| stub_timestamp := time.zero; storeCalls := [] |};
                 out := "" |}
              1700000000 Hrange)
    as [_ (text & Hout & _ & _ & Hunique)].
  rewrite Hout. now rewrite <- (Hunique "1700000000" eq_refl eq_refl).
Defined.

(** ** The routing table *)

(** X14: for a request that a handler serves, with a method other than
    [CONNECT] and a path without percent-escapes, the handler is chosen by
    the method and the path alone: [getTimestamp] runs for the path
    [/timestamp] with the method [GET] or [HEAD], [storeTimestamp] for the
    path [/timestamp] with the method [POST], and [notFoundHandler] for
    everything else. *)
Theorem served_by_method_and_path {S} `{TimestampStore S}
    (t t' : S) (w w' : httptest.ResponseRecorder) (r : http.Request) :
  ServeHTTP t w r = Some (t', w') ->
  http.Method r <> "CONNECT" ->
  plain (http.EscapedPath r) = true ->
  (t', w') =
    if String.eqb (http.EscapedPath r) "/timestamp"
       && (String.eqb (http.Method r) "GET" || String.eqb (http.Method r) "HEAD")
    then getTimestamp t w r
    else if String.eqb (http.EscapedPath r) "/timestamp"
            && String.eqb (http.Method r) "POST"
    then storeTimestamp t w r
    else notFoundHandler t w r.
Proof.
  intros Hserved Hmethod Hplain.
  pose proof (ServeHTTP_clean _ _ _ _ _ Hserved Hmethod) as Hclean.
  destruct (cleanPath_rooted (http.EscapedPath r)) as [q Hq].
  rewrite Hclean in Hq. rewrite Hq in Hplain.
  pose proof (timestampPath_plain q Hplain) as Hts. rewrite <- Hq in Hts.
  apply ServeHTTP_registered in Hserved. rewrite Hserved.
  unfold isGetTimestamp, isPostTimestamp.
  assert (Hpath : timestampPath (http.EscapedPath r)
                  = String.eqb (http.EscapedPath r) "/timestamp").
  { destruct (String.eqb_spec (http.EscapedPath r) "/timestamp") as [Heq | Hne].
    - now apply Hts.
    - destruct (timestampPath (http.EscapedPath r)) eqn:Hpath; [|reflexivity].
      exfalso. apply Hne. now apply Hts. }
  rewrite Hpath, (String.eqb_sym "GET"), (String.eqb_sym "POST"). reflexivity.
Qed.

Lemma served_by_method_and_path_witness :
  (StoreTimestamp 5 NewInMemoryTimestampStore,
   snd (getTimestamp (StoreTimestamp 5 NewInMemoryTimestampStore) httptest.NewRecorder
          (NewRequest "HEAD" "/timestamp" None)))
  = getTimestamp (StoreTimestamp 5 NewInMemoryTimestampStore) httptest.NewRecorder
      (NewRequest "HEAD" "/timestamp" None).
Proof.
  exact (served_by_method_and_path
           (StoreTimestamp 5 NewInMemoryTimestampStore)
           (StoreTimestamp 5 NewInMemoryTimestampStore)
           httptest.NewRecorder
           (snd (getTimestamp (StoreTimestamp 5 NewInMemoryTimestampStore)
                   httptest.NewRecorder (NewRequest "HEAD" "/timestamp" None)))
           (NewRequest "HEAD" "/timestamp" None)
           eq_refl ltac:(discriminate) eq_refl).
Defined.
